(** * vite-plugin-html-template-mpa: page resolution and build-output naming

    A shallow embedding of [src/index.ts].  The plugin decides, for every
    HTML page of a site, which page name a request or a module identifier
    stands for, which page descriptor and template belong to it, which
    file-name patterns the bundler uses, and where an emitted HTML document
    ends up.

    Conventions of the embedding:
    - a JavaScript string is a [string]; every [ascii] stands for one code
      unit below 256, so the two line terminators U+2028 and U+2029 that the
      regular expression dot also refuses are outside the modelled strings;
    - a JavaScript object used as a record of options is a [gmap string jsval];
    - code that can throw returns a [result];
    - collaborators that live outside the repository's [index.ts]
      ([path.resolve], [fs.existsSync], the minifier, the hash primitive,
      the regular expression built from a user-supplied search value) are
      section variables. *)

From Stdlib Require Import Ascii.
From stdpp Require Import gmap strings list fin_maps.

(** ** JavaScript strings *)

Module JsString.

(** [s.startsWith(p)] *)
Fixpoint startsWith (s p : string) {struct p} : bool :=
  match p with
  | "" => true
  | String a p' =>
      match s with
      | "" => false
      | String b s' => if decide (a = b) then startsWith s' p' else false
      end
  end.

(** [s.includes(p)]: [p] starts at some position of [s]. *)
Fixpoint includes (s p : string) : bool :=
  startsWith s p ||
  match s with
  | "" => false
  | String _ s' => includes s' p
  end.

(** [s.indexOf(p)]: the first position where [p] starts; [None] for -1. *)
Fixpoint indexOf (s p : string) : option nat :=
  if startsWith s p then Some 0
  else match s with
       | "" => None
       | String _ s' => S <$> indexOf s' p
       end.

(** [s.endsWith(p)]: some suffix of [s] is [p]. *)
Fixpoint endsWith (s p : string) : bool :=
  if decide (s = p) then true
  else match s with
       | "" => false
       | String _ s' => endsWith s' p
       end.

(** [s.slice(n)] for [0 <= n]. *)
Fixpoint sliceFrom (n : nat) (s : string) : string :=
  match n, s with
  | O, _ => s
  | S _, "" => ""
  | S k, String _ s' => sliceFrom k s'
  end.

(** [s.slice(0, n)] for [0 <= n]. *)
Fixpoint sliceTo (n : nat) (s : string) : string :=
  match n, s with
  | O, _ => ""
  | S _, "" => ""
  | S k, String c s' => String c (sliceTo k s')
  end.

(** Does the character [c] occur in [s]? *)
Fixpoint hasChar (c : ascii) (s : string) : bool :=
  match s with
  | "" => false
  | String a s' => if decide (a = c) then true else hasChar c s'
  end.

(** The piece under construction takes one more character in front. *)
Definition consHead (c : ascii) (l : list string) : list string :=
  match l with
  | p :: ps => String c p :: ps
  | [] => [String c ""]
  end.

(** [s.split(sep)] for a non-empty separator: the pieces between the
    occurrences of [sep], found from left to right without overlap.
    [skip] counts the characters of a matched separator still to pass. *)
Fixpoint splitGo (sep : string) (skip : nat) (s : string) : list string :=
  match s with
  | "" => [""]
  | String c s' =>
      match skip with
      | S k => splitGo sep k s'
      | O =>
          if startsWith s sep
          then "" :: splitGo sep (String.length sep - 1) s'
          else consHead c (splitGo sep 0 s')
      end
  end.

Fixpoint chars (s : string) : list string :=
  match s with
  | "" => []
  | String c s' => String c "" :: chars s'
  end.

(** [s.split(sep)]; the empty separator cuts between all code units. *)
Definition split (sep s : string) : list string :=
  match sep with
  | "" => chars s
  | _ => splitGo sep 0 s
  end.

(** [s.replace(/c/g, '')] for a single literal character [c]. *)
Fixpoint removeChar (c : ascii) (s : string) : string :=
  match s with
  | "" => ""
  | String a s' =>
      if decide (a = c) then removeChar c s' else String a (removeChar c s')
  end.

(** [s.replace(/a/g, b)] for single literal characters. *)
Fixpoint mapChar (a b : ascii) (s : string) : string :=
  match s with
  | "" => ""
  | String x s' => String (if decide (x = a) then b else x) (mapChar a b s')
  end.

(** [s.replace(p, r)] with a string pattern: the first occurrence only. *)
Fixpoint replaceFirst (p r : string) (s : string) : string :=
  if startsWith s p then r +:+ sliceFrom (String.length p) s
  else match s with
       | "" => ""
       | String c s' => String c (replaceFirst p r s')
       end.

End JsString.

Import JsString.

(** ** JavaScript values and exceptions *)

(** The values the option objects hold.  [VObject repr] is any object or
    function; [repr] is the text [String(v)] gives for it. *)
Inductive jsval : Type :=
  | VUndefined
  | VBool (b : bool)
  | VString (s : string)
  | VObject (repr : string).

#[global] Instance jsval_eq_dec : EqDecision jsval.
Proof. solve_decision. Defined.

(** [String(v)] *)
Definition toString (v : jsval) : string :=
  match v with
  | VUndefined => "undefined"
  | VBool true => "true"
  | VBool false => "false"
  | VString s => s
  | VObject repr => repr
  end.

(** The truthiness test of [if], [?:], [||] and [!]. *)
Definition truthy (v : jsval) : bool :=
  match v with
  | VUndefined => false
  | VBool b => b
  | VString s => negb (bool_decide (s = ""))
  | VObject _ => true
  end.

(** [o[k]]: a missing property reads as [undefined]. *)
Definition getProp (o : gmap string jsval) (k : string) : jsval :=
  default VUndefined (o !! k).

Inductive jserror : Type := TypeError.

Inductive result (A : Type) : Type :=
  | Ok (a : A)
  | Throw (e : jserror).
Arguments Ok {A} a.
Arguments Throw {A} e.

#[global] Instance result_ret : MRet result := fun A a => Ok a.

#[global] Instance result_bind : MBind result := fun A B k r =>
  match r with
  | Ok a => k a
  | Throw e => Throw e
  end.

(** ** Regular expressions of the plugin *)

Module Regex.

(** The dot of a regular expression (without the [s] flag) refuses the
    line terminators. *)
Definition isLineTerminator (c : ascii) : bool :=
  bool_decide (c = "010"%char) || bool_decide (c = "013"%char).

(** The characters with a meaning of their own in a pattern. *)
Definition isSyntaxChar (c : ascii) : bool :=
  bool_decide (c ∈ ["\"; "^"; "$"; "."; "*"; "+"; "?"; "("; ")"; "[";
                    "]"; "{"; "}"; "|"]%char).

(** A pattern text that [new RegExp] reads as a plain literal. *)
Fixpoint isLiteral (p : string) : bool :=
  match p with
  | "" => true
  | String c p' => negb (isSyntaxChar c) && isLiteral p'
  end.

Fixpoint hasLineTerminator (s : string) : bool :=
  match s with
  | "" => false
  | String c s' => isLineTerminator c || hasLineTerminator s'
  end.

(** The longest text the greedy dot-star can take: up to the first line
    terminator. *)
Fixpoint dotStar (s : string) : string :=
  match s with
  | "" => ""
  | String c s' => if isLineTerminator c then "" else String c (dotStar s')
  end.

(** Backtracking of the greedy group followed by a slash, inside the
    text the dot-star can take: the capture ends before the last slash;
    no slash, no match. *)
Fixpoint uptoLastSlash (s : string) : option string :=
  match s with
  | "" => None
  | String c s' =>
      match uptoLastSlash s' with
      | Some cap => Some (String c cap)
      | None => if decide (c = "/"%char) then Some "" else None
      end
  end.

(** [s.match(re)?.[1]] for the expression [re] made of a literal [lit],
    a slash, a group holding a greedy dot-star, and a slash: the first
    group of the leftmost match. *)
Fixpoint matchDirGroup (lit : string) (s : string) : option string :=
  let here :=
    if startsWith s (lit +:+ "/")
    then uptoLastSlash (dotStar (sliceFrom (String.length lit + 1) s))
    else None in
  match here with
  | Some cap => Some cap
  | None =>
      match s with
      | "" => None
      | String _ s' => matchDirGroup lit s'
      end
  end.

(** [s.replace(re, r)] for a global [re] whose matches all have the same
    length [len >= 1]; [matches] tells whether [re] matches at the start
    of a text, [r] has no dollar sign.  [skip] counts the characters of
    the current match still to pass. *)
Fixpoint replaceAllGo (matches : string -> bool) (len : nat) (r : string)
    (skip : nat) (s : string) : string :=
  match s with
  | "" => ""
  | String c s' =>
      match skip with
      | S k => replaceAllGo matches len r k s'
      | O =>
          if matches s
          then r +:+ replaceAllGo matches len r (len - 1) s'
          else String c (replaceAllGo matches len r 0 s')
      end
  end.

(** [/\.js/g] *)
Definition matchesDotJs (s : string) : bool := startsWith s ".js".

(** [/.css/g]: the dot is not escaped. *)
Definition matchesAnyCss (s : string) : bool :=
  match s with
  | "" => false
  | String c s' => negb (isLineTerminator c) && startsWith s' "css"
  end.

End Regex.

(** ** Node's [path] module (posix) *)

Module Path.

(** The loop of [path.dirname]: [rpath] holds [path[i]], [path[i-1]], ...,
    [path[1]]; the result is [end], if the loop sets it. *)
Fixpoint dirnameEnd (i : nat) (matchedSlash : bool) (rpath : string)
    : option nat :=
  match rpath with
  | "" => None
  | String c r =>
      if decide (c = "/"%char)
      then if matchedSlash then dirnameEnd (i - 1) matchedSlash r
           else Some i
      else dirnameEnd (i - 1) false r
  end.

(** [path.dirname(p)] *)
Definition dirname (p : string) : string :=
  match p with
  | "" => "."
  | String c0 tl =>
      let hasRoot := bool_decide (c0 = "/"%char) in
      match dirnameEnd (String.length tl) true (String.rev tl) with
      | None => if hasRoot then "/" else "."
      | Some e =>
          if hasRoot && bool_decide (e = 1) then "//" else sliceTo e p
      end
  end.

(** The loop of [path.basename] without a suffix, on the reversed path:
    the characters between the last slash and the trailing slashes. *)
Fixpoint basenameGo (matchedSlash : bool) (rpath : string) (acc : string)
    : string :=
  match rpath with
  | "" => acc
  | String c r =>
      if decide (c = "/"%char)
      then if matchedSlash then basenameGo matchedSlash r acc else acc
      else basenameGo false r (String c acc)
  end.

(** [path.basename(p)] *)
Definition basename (p : string) : string :=
  basenameGo true (String.rev p) "".

End Path.

(** Follows the words of the specification, not the code: the last segment
    of a path is the text after its last slash, the whole path when it has
    no slash. *)
Fixpoint lastSegment (d : string) : string :=
  match d with
  | "" => ""
  | String c d' =>
      if hasChar "/" d' then lastSegment d'
      else if decide (c = "/"%char) then d' else d
  end.

(** ** The helpers of [./utils] *)

Module Utils.

(** Modelled from the spec: [utils.ts] is not among the embedded sources.
    [last(arr)] is the last element of an array, [undefined] ([None]) for
    the empty one. *)
Definition last {A : Type} (arr : list A) : option A := list.last arr.

(** Modelled from the spec: [utils.ts] is not among the embedded sources.
    [pick(obj, keys)] is the object made of the properties of [obj] whose
    keys are listed. *)
Definition pick (obj : gmap string jsval) (keys : list string)
    : gmap string jsval :=
  filter (fun kv => kv.1 ∈ keys) obj.

End Utils.

(** ** Options and configuration *)

(** [options.buildCfg] *)
Record buildCfgT : Type := {
  moveHtmlTop : bool;
  moveHtmlDirTop : bool;
  buildPrefixName : string;
  htmlHash : bool;
  buildAssetDirName : string;
  buildChunkDirName : string;
  buildEntryDirName : string;
  htmlPrefixSearchValue : string;
  htmlPrefixReplaceValue : string;
}.

(** The plugin's [options]: the defaults with the user's options spread
    over them.  [pages] is [None] when the property is absent or falsy;
    [fields] holds the remaining own properties ([template], [title],
    [entry], [filename], [urlParams], [inject], [jumpTarget], ...). *)
Record optionsT : Type := {
  pagesDir : string;
  pages : option (gmap string (gmap string jsval));
  fields : gmap string jsval;
  buildCfg : buildCfgT;
  minify : bool;
  onlyUseEjsAndMinify : bool;
}.

Definition defaultBuildCfg : buildCfgT := {|
  moveHtmlTop := true;
  moveHtmlDirTop := false;
  buildPrefixName := "";
  htmlHash := false;
  buildAssetDirName := "";
  buildChunkDirName := "";
  buildEntryDirName := "";
  htmlPrefixSearchValue := "";
  htmlPrefixReplaceValue := "";
|}.

Definition defaultOptions : optionsT := {|
  pagesDir := "src/views";
  pages := Some ∅;
  fields := {[ "jumpTarget" := VString "_self" ]};
  buildCfg := defaultBuildCfg;
  minify := true;
  onlyUseEjsAndMinify := false;
|}.

(** The options of the specification's scenario: one page [foo] with a
    title of its own. *)
Definition fooOptions : optionsT := {|
  pagesDir := "src/views";
  pages := Some {[ "foo" := {[ "title" := VString "Foo" ]} ]};
  fields := {[ "jumpTarget" := VString "_self"; "title" := VString "Site" ]};
  buildCfg := defaultBuildCfg;
  minify := true;
  onlyUseEjsAndMinify := false;
|}.

(** Options with a template for the site and one for the page [foo]. *)
Definition templateOptions : optionsT := {|
  pagesDir := "src/views";
  pages := Some {[ "foo" := {[ "template" := VString "tpl/foo.html" ]} ]};
  fields := {[ "jumpTarget" := VString "_self";
               "template" := VString "tpl/site.html" ]};
  buildCfg := defaultBuildCfg;
  minify := true;
  onlyUseEjsAndMinify := false;
|}.

(** Options with the hash tag on, and options with a directory for the
    assets. *)
Definition hashOptions : optionsT := {|
  pagesDir := "src/views";
  pages := Some ∅;
  fields := {[ "jumpTarget" := VString "_self" ]};
  buildCfg := {|
    moveHtmlTop := true;
    moveHtmlDirTop := false;
    buildPrefixName := "";
    htmlHash := true;
    buildAssetDirName := "";
    buildChunkDirName := "";
    buildEntryDirName := "";
    htmlPrefixSearchValue := "";
    htmlPrefixReplaceValue := "";
  |};
  minify := false;
  onlyUseEjsAndMinify := false;
|}.

Definition assetDirOptions : optionsT := {|
  pagesDir := "src/views";
  pages := Some ∅;
  fields := {[ "jumpTarget" := VString "_self" ]};
  buildCfg := {|
    moveHtmlTop := true;
    moveHtmlDirTop := false;
    buildPrefixName := "";
    htmlHash := false;
    buildAssetDirName := "x";
    buildChunkDirName := "";
    buildEntryDirName := "";
    htmlPrefixSearchValue := "";
    htmlPrefixReplaceValue := "";
  |};
  minify := false;
  onlyUseEjsAndMinify := false;
|}.

(** Options with a prefix for the build. *)
Definition prefixOptions : optionsT := {|
  pagesDir := "src/views";
  pages := Some ∅;
  fields := {[ "jumpTarget" := VString "_self" ]};
  buildCfg := {|
    moveHtmlTop := true;
    moveHtmlDirTop := false;
    buildPrefixName := "app-";
    htmlHash := false;
    buildAssetDirName := "";
    buildChunkDirName := "";
    buildEntryDirName := "";
    htmlPrefixSearchValue := "";
    htmlPrefixReplaceValue := "";
  |};
  minify := false;
  onlyUseEjsAndMinify := false;
|}.

(** An input mapping with two pages. *)
Definition twoPages : gmap string string :=
  {[ "foo" := "/project/src/views/foo/index.html";
     "bar" := "/project/src/views/bar/index.html" ]}.

(** A reference to an object of the heap. *)
Definition loc : Type := nat.

(** The part of Vite's [ResolvedConfig] the plugin reads and writes.
    [input] and [output] are [build.rollupOptions.input] and [.output];
    [None] is [undefined].  The paths in [input] are normalized already.
    [output] refers to an object: the plugin keeps a second reference to
    it and writes through that one. *)
Record ResolvedConfig : Type := {
  root : string;
  assetsDir : string;
  input : option (gmap string string);
  output : option loc;
}.

Definition heapT : Type := list (gmap string jsval).

(** The properties of the object at [l]. *)
Definition deref (h : heapT) (l : loc) : gmap string jsval :=
  default ∅ (h !! l).

(** What an object spread copies from a reference that may be [undefined]. *)
Definition spread (h : heapT) (r : option loc) : gmap string jsval :=
  match r with
  | Some l => deref h l
  | None => ∅
  end.

(** A new object literal. *)
Definition alloc (h : heapT) (o : gmap string jsval) : heapT * loc :=
  (h ++ [o], length h).

(** The configuration the host hands to [configResolved] when its output
    patterns are [out] ([None]: [rollupOptions.output] is [undefined]), and
    the heap that holds them. *)
Definition hostConfig (root0 assetsDir0 : string)
    (input0 : option (gmap string string)) (out : option (gmap string jsval))
    : ResolvedConfig :=
  {| root := root0; assetsDir := assetsDir0; input := input0;
     output := match out with Some _ => Some 0 | None => None end |}.

Definition hostHeap (out : option (gmap string jsval)) : heapT :=
  match out with
  | Some o => [o]
  | None => []
  end.

Definition PREFIX : string := "src".

Definition commonKeys : list string :=
  ["template"; "title"; "entry"; "filename"; "urlParams"; "inject"].

(** [getPageData(options, pageName)].  A spread puts the properties of its
    operand over the ones collected so far: the union prefers its left
    operand, so the later spread stands on the left.  [pages[pageName]] is
    looked up among the own keys of [pages]: what a plain object inherits
    ([constructor], [toString], ...) has no enumerable property of its own,
    so spreading it copies nothing, as for [undefined]. *)
Definition getPageData (options : optionsT) (pageName : string)
    : gmap string jsval :=
  let commonOptions := Utils.pick (fields options) commonKeys in
  let isSpa :=
    match pages options with
    | None => true
    | Some ps => bool_decide (ps = ∅)
    end in
  if isSpa then commonOptions
  else
    let override :=
      match pages options with
      | Some ps => default ∅ (ps !! pageName)
      | None => ∅
      end in
    override ∪ commonOptions.

(** *** Page names *)

(** The page name the dev middleware derives ([configureServer]); [None]
    when [pagesDir] is not a literal pattern, which is outside the regular
    expressions modelled here. *)
Definition devPageName (options : optionsT) (originalUrl : string)
    : option string :=
  if Regex.isLiteral (pagesDir options) then
    let url := pagesDir options +:+ originalUrl in
    Some (if decide (url = "/") then "index"
          else match Regex.matchDirGroup (pagesDir options) url with
               | Some cap => if decide (cap = "") then "index" else cap
               | None => "index"
               end)
  else None.

(** The requests the dev middleware handles itself. *)
Definition devHandles (url : string) : bool :=
  endsWith url ".html" || bool_decide (url = "/").

(** The page name [resolveId] assigns in MPA mode, from a normalized
    identifier. *)
Definition resolveIdPageName (id : string) : string :=
  default "" (Utils.last (split "/" (Path.dirname id))).

(** The page name [load] assigns, from a normalized identifier; calling
    [replace] on [undefined] throws. *)
Definition loadPageName (options : optionsT) (id : string) : result string :=
  match Utils.last (split (pagesDir options) (Path.dirname id)) with
  | Some piece => Ok (removeChar "/" piece)
  | None => Throw TypeError
  end.

(** ** Output naming: [configResolved] *)

Definition templatePattern (assetDir dir : string) (tail : string) : string :=
  assetDir +:+ "/" +:+ dir +:+ tail.

(** The pattern a directory rule chooses, from the category's current
    pattern [current]. *)
Definition categoryPattern (hash : bool) (assetDir dir : string)
    (plain hashed : string) (current : jsval) : string :=
  if hash || negb (includes (toString current) "[hash]")
  then templatePattern assetDir dir plain
  else templatePattern assetDir dir hashed.

(** The assignment of a directory rule, on the object it writes to. *)
Definition categoryWrite (hash : bool) (assetDir dir key : string)
    (plain hashed : string) (o : gmap string jsval) : gmap string jsval :=
  <[key := VString (categoryPattern hash assetDir dir plain hashed
                      (getProp o key))]> o.

(** One of the three directory rules: [_output[key] = ...] through the
    reference [_output] taken before the hash step; reading or writing a
    property of [undefined] throws. *)
Definition categoryRule (hash : bool) (assetDir dir key : string)
    (plain hashed : string) (_output : option loc) (h : heapT)
    : result heapT :=
  if decide (dir = "") then Ok h
  else
    match _output with
    | None => Throw TypeError
    | Some l =>
        Ok (<[l := categoryWrite hash assetDir dir key plain hashed
                     (deref h l)]> h)
    end.

(** The input step: every key of the input mapping gets the prefix (in a
    build), the values stay; [Object.keys(undefined)] throws. *)
Definition prefixInput (bc : buildCfgT) (isBuild : bool)
    (rollupInput : option (gmap string string))
    : result (option (gmap string string)) :=
  if decide (buildPrefixName bc = "") then Ok rollupInput
  else
    match rollupInput with
    | None => Throw TypeError
    | Some inp =>
        let pre := if isBuild then buildPrefixName bc else "" in
        Ok (Some (kmap (M2 := gmap string) (String.app pre) inp))
    end.

(** The triple the hash step installs. *)
Definition buildAssets (assetDir : string) : gmap string jsval :=
  {[ "entryFileNames" := VString (assetDir +:+ "/[name].js");
     "chunkFileNames" := VString (assetDir +:+ "/[name].js");
     "assetFileNames" := VString (assetDir +:+ "/[name].[ext]") ]}.

(** The hash step: [rollupOptions.output] becomes a new object, the triple
    over a copy of the old one. *)
Definition hashStep (bc : buildCfgT) (assetDir : string)
    (buildOutput : option loc) (h : heapT) : heapT * option loc :=
  if htmlHash bc then
    let '(h', l) := alloc h (buildAssets assetDir ∪ spread h buildOutput) in
    (h', Some l)
  else (h, buildOutput).

Section Plugin.

(** [isMpa(config)] of [./utils] *)
Variable isMpa : ResolvedConfig -> bool.
(** [path.resolve(from, p)] and [process.cwd()] *)
Variable pathResolve : string -> string -> string.
Variable cwd : string.
(** [fs.existsSync(p)] *)
Variable existsSync : string -> bool.
(** [minifyHtml(source, options.minify)] of [./utils] *)
Variable minifyHtml : string -> string.
(** [text.replace(new RegExp(search, 'g'), replacement)] *)
Variable regexReplaceAll : string -> string -> string -> string.
(** [uniqueHash]: sixteen hexadecimal digits of a digest of the start
    time. *)
Variable uniqueHash : string.

Definition resolve (p : string) : string := pathResolve cwd p.

(** [configResolved(resolvedConfig)] of the template plugin: the new
    configuration and heap, or the exception that escapes. *)
Definition configResolved (options : optionsT) (isBuild : bool)
    (resolvedConfig : ResolvedConfig) (h : heapT)
    : result (ResolvedConfig * heapT) :=
  let bc := buildCfg options in
  let assetDir :=
    if decide (assetsDir resolvedConfig = "") then "assets"
    else assetsDir resolvedConfig in
  if negb (onlyUseEjsAndMinify options) && isMpa resolvedConfig then
    let _output := output resolvedConfig in
    input1 ← prefixInput bc isBuild (input resolvedConfig);
    let '(h1, output1) := hashStep bc assetDir (output resolvedConfig) h in
    h2 ← categoryRule (htmlHash bc) assetDir (buildAssetDirName bc)
           "assetFileNames" "/[name].[ext]" "/[name]-[hash].[ext]"
           _output h1;
    h3 ← categoryRule (htmlHash bc) assetDir (buildChunkDirName bc)
           "chunkFileNames" "/[name].js" "/[name]-[hash].js"
           _output h2;
    h4 ← categoryRule (htmlHash bc) assetDir (buildEntryDirName bc)
           "entryFileNames" "/[name].js" "/[name]-[hash].js"
           _output h3;
    let '(h5, l) := alloc h4 (spread h4 _output ∪ spread h4 output1) in
    Ok ({| root := root resolvedConfig;
           assetsDir := assetsDir resolvedConfig;
           input := input1;
           output := Some l |}, h5)
  else if negb isBuild && truthy (getProp (fields options) "template")
          && bool_decide (input resolvedConfig = None) then
    match getProp (fields options) "template" with
    | VString t =>
        Ok ({| root := root resolvedConfig;
               assetsDir := assetsDir resolvedConfig;
               input := Some {[ "main" := pathResolve (root resolvedConfig) t ]};
               output := output resolvedConfig |}, h)
    | _ => Throw TypeError
    end
  else Ok (resolvedConfig, h).

(** The planner on the host configuration [hostConfig ...] and its heap:
    the input mapping and the output patterns the host ends with. *)
Definition planOutput (options : optionsT) (isBuild : bool)
    (root0 assetsDir0 : string) (input0 : option (gmap string string))
    (out : option (gmap string jsval))
    : result (option (gmap string string) * option (gmap string jsval)) :=
  '(c, h) ← configResolved options isBuild
              (hostConfig root0 assetsDir0 input0 out) (hostHeap out);
  Ok (input c, (deref h) <$> output c).

(** *** Template paths *)

(** [resolve(templateOption)]: [path.resolve] refuses what is not a
    string. *)
Definition resolveValue (v : jsval) : result jsval :=
  match v with
  | VString s => Ok (VString (resolve s))
  | _ => Throw TypeError
  end.

(** [config.build?.rollupOptions?.input?.[pageName]] *)
Definition inputOf (config : ResolvedConfig) (pageName : string) : jsval :=
  match input config with
  | Some inp =>
      match inp !! pageName with
      | Some p => VString p
      | None => VUndefined
      end
  | None => VUndefined
  end.

(** [templatePath] of the dev middleware, for the page descriptor [page]. *)
Definition devTemplatePath (options : optionsT) (config : ResolvedConfig)
    (pageName : string) (page : gmap string jsval) : result jsval :=
  let templateOption := getProp page "template" in
  if onlyUseEjsAndMinify options then Ok (inputOf config pageName)
  else if truthy templateOption then resolveValue templateOption
  else if isMpa config then Ok (VString (resolve "public/index.html"))
  else Ok (VString (resolve "index.html")).

(** [templatePath] of [load], for the page descriptor [page]. *)
Definition loadTemplatePath (page : gmap string jsval) : result jsval :=
  let publicIndexHtml := resolve "public/index.html" in
  let indexHtml := resolve "index.html" in
  let templateOption := getProp page "template" in
  if truthy templateOption then resolveValue templateOption
  else if existsSync publicIndexHtml then Ok (VString publicIndexHtml)
  else Ok (VString indexHtml).

(** The dev middleware up to the call of the renderer: page name, page
    descriptor and template path of a request it handles. *)
Definition devResolve (options : optionsT) (config : ResolvedConfig)
    (originalUrl : string)
    : option (string * gmap string jsval * result jsval) :=
  match devPageName options originalUrl with
  | Some pageName =>
      let page := getPageData options pageName in
      Some (pageName, page, devTemplatePath options config pageName page)
  | None => None
  end.

(** [load(id)] up to the call of the renderer, for a normalized [id]:
    [None] when the hook declines, else page name and template path. *)
Definition loadResolve (options : optionsT) (id : string)
    : option (result (string * jsval)) :=
  if endsWith id ".html" then
    Some (pageName ← loadPageName options id;
          templatePath ← loadTemplatePath (getPageData options pageName);
          Ok (pageName, templatePath))
  else None.

(** [resolveId(id)] on a normalized [id]: the identifier it returns
    ([None] for [null]) and the page name it assigns, if it assigns one. *)
Definition resolveId (options : optionsT) (config : ResolvedConfig)
    (id : string) : option string * option string :=
  if negb (onlyUseEjsAndMinify options) && endsWith id ".html" then
    if negb (isMpa config) then
      (Some (PREFIX +:+ "/" +:+ Path.basename id), None)
    else
      let pageName := resolveIdPageName id in
      let isInput :=
        match input config with
        | Some inputPages => bool_decide (id ∈ (map_to_list inputPages).*2)
        | None => false
        end in
      ((if isInput
        then Some (PREFIX +:+ "/" +:+ replaceFirst "src/" "" (pagesDir options)
                   +:+ "/" +:+ pageName +:+ "/index.html")
        else None),
       Some pageName)
  else (None, None).

(** ** Post-processing of the bundle: [generateBundle] *)

(** An emitted chunk: its output path and its text. *)
Record htmlChunkT : Type := {
  fileName : string;
  source : string;
}.

(** [htmlName]: the prefix and the second-to-last segment of the output
    path; an index below zero reads [undefined]. *)
Definition htmlNameOf (bc : buildCfgT) (fileName0 : string) : string :=
  let _pageName := split "/" (mapChar "\" "/" fileName0) in
  buildPrefixName bc +:+
    match length _pageName with
    | S (S n) => default "undefined" (_pageName !! n)
    | _ => "undefined"
    end.

(** The two replacements of the hash step. *)
Definition hashTag (text : string) : string :=
  Regex.replaceAllGo Regex.matchesAnyCss 4 (".css?" +:+ uniqueHash) 0
    (Regex.replaceAllGo Regex.matchesDotJs 3 (".js?" +:+ uniqueHash) 0 text).

(** The text of a processed document. *)
Definition finalSource (options : optionsT) (text : string) : string :=
  let bc := buildCfg options in
  let _source := if htmlHash bc then hashTag text else text in
  let minified := if minify options then minifyHtml _source else _source in
  if decide (htmlPrefixSearchValue bc = "") then minified
  else regexReplaceAll (htmlPrefixSearchValue bc)
         (htmlPrefixReplaceValue bc) minified.

(** The output path of a processed document. *)
Definition finalFileName (options : optionsT) (config : ResolvedConfig)
    (fileName0 : string) : string :=
  let bc := buildCfg options in
  let htmlName := htmlNameOf bc fileName0 in
  if isMpa config then
    if moveHtmlTop bc then htmlName +:+ ".html"
    else if moveHtmlDirTop bc then htmlName +:+ "/index.html"
    else fileName0
  else "index.html".

(** One turn of the loop of [generateBundle]. *)
Definition processChunk (options : optionsT) (config : ResolvedConfig)
    (htmlChunk : htmlChunkT) : htmlChunkT :=
  {| fileName := finalFileName options config (fileName htmlChunk);
     source := finalSource options (source htmlChunk) |}.

(** [generateBundle(_, bundle)]: the chunks under a key that ends in
    [.html] are processed, the others stay. *)
Definition generateBundle (options : optionsT) (config : ResolvedConfig)
    (bundle : gmap string htmlChunkT) : gmap string htmlChunkT :=
  map_imap (fun item htmlChunk =>
    Some (if endsWith item ".html"
          then processChunk options config htmlChunk
          else htmlChunk)) bundle.

End Plugin.

(** A bundle with one page document two levels down, and a bundle with a
    document at the top level. *)
Definition fooBundle : gmap string htmlChunkT :=
  {[ "views/foo/index.html" :=
       {| fileName := "views/foo/index.html";
          source := "<a href=https://tailwindcss.com>docs</a>" |} ]}.

Definition topBundle : gmap string htmlChunkT :=
  {[ "index.html" :=
       {| fileName := "index.html"; source := "<p>top</p>" |} ]}.

(** A bundle with a page document and a script. *)
Definition mixedBundle : gmap string htmlChunkT :=
  {[ "views/foo/index.html" :=
       {| fileName := "views/foo/index.html";
          source := "<script src=/assets/app.js></script>" |};
     "assets/app.js" :=
       {| fileName := "assets/app.js"; source := "import './app.css'" |} ]}.

(** A configuration with the two pages as input. *)
Definition twoPagesConfig : ResolvedConfig :=
  {| root := "/project"; assetsDir := "assets";
     input := Some twoPages; output := None |}.

(** * Facts *)

(** ** Strings *)

Section StringFacts.

Implicit Types (s t u p : string) (c : ascii).

Lemma str_app_nil_l s : "" +:+ s = s.
Proof. reflexivity. Qed.

Lemma str_app_cons c s t : String c s +:+ t = String c (s +:+ t).
Proof. reflexivity. Qed.

Lemma str_app_nil_r s : s +:+ "" = s.
Proof. induction s as [|c s IH]; [done|]. by rewrite str_app_cons, IH. Qed.

Lemma str_app_assoc s t u : (s +:+ t) +:+ u = s +:+ t +:+ u.
Proof. induction s as [|c s IH]; [done|]. by rewrite !str_app_cons, IH. Qed.

Lemma str_app_length s t :
  String.length (s +:+ t) = String.length s + String.length t.
Proof. induction s as [|c s IH]; [done|]. rewrite str_app_cons. simpl. lia. Qed.

Lemma str_app_eq_nil s t : s +:+ t = "" -> s = "" /\ t = "".
Proof. destruct s; [done|]. by rewrite str_app_cons. Qed.

Lemma startsWith_nil s : startsWith s "" = true.
Proof. by destruct s. Qed.

Lemma startsWith_app p s : startsWith (p +:+ s) p = true.
Proof.
  induction p as [|a p IH]; [apply startsWith_nil|].
  rewrite str_app_cons. simpl. by rewrite decide_True.
Qed.

Lemma startsWith_cons a p b s :
  startsWith (String b s) (String a p) =
  bool_decide (a = b) && startsWith s p.
Proof.
  simpl. case_decide; [by rewrite bool_decide_eq_true_2|].
  by rewrite bool_decide_eq_false_2.
Qed.

(** A pattern no longer than [s] only looks at [s]. *)
Lemma startsWith_app_l p s t :
  String.length p <= String.length s ->
  startsWith (s +:+ t) p = startsWith s p.
Proof.
  revert s. induction p as [|a p IH]; intros s Hlen.
  - by rewrite !startsWith_nil.
  - destruct s as [|b s]; [simpl in Hlen; lia|].
    rewrite str_app_cons, !startsWith_cons, IH; [done|]. simpl in Hlen. lia.
Qed.

Lemma sliceFrom_app p s : sliceFrom (String.length p) (p +:+ s) = s.
Proof. induction p as [|a p IH]; [done|]. by rewrite str_app_cons. Qed.

Lemma sliceTo_app p s : sliceTo (String.length p) (p +:+ s) = p.
Proof.
  induction p as [|a p IH]; [by destruct s|].
  rewrite str_app_cons. simpl. by rewrite IH.
Qed.

Lemma hasChar_app c s t : hasChar c (s +:+ t) = hasChar c s || hasChar c t.
Proof.
  induction s as [|a s IH]; [done|].
  rewrite str_app_cons. simpl. by destruct (decide (a = c)).
Qed.

Lemma removeChar_id c s : hasChar c s = false -> removeChar c s = s.
Proof.
  induction s as [|a s IH]; [done|]. simpl.
  destruct (decide (a = c)); [done|]. intros H. by rewrite IH.
Qed.

Lemma mapChar_app a b s t :
  mapChar a b (s +:+ t) = mapChar a b s +:+ mapChar a b t.
Proof. induction s as [|x s IH]; [done|]. by rewrite !str_app_cons; simpl; rewrite IH. Qed.

Lemma mapChar_id a b s : hasChar a s = false -> mapChar a b s = s.
Proof.
  induction s as [|x s IH]; [done|]. simpl.
  destruct (decide (x = a)); [done|]. intros H. by rewrite IH.
Qed.

Lemma hasChar_mapChar a b c s :
  a <> c -> b <> c -> hasChar c (mapChar a b s) = hasChar c s.
Proof.
  intros Ha Hb. induction s as [|x s IH]; [done|]. simpl.
  rewrite IH. destruct (decide (x = a)) as [->|]; [|done].
  by rewrite !decide_False.
Qed.

(** Reversal, as [String.rev] computes it. *)
Lemma str_rev_app_spec s t : String.rev_app s t = String.rev s +:+ t.
Proof.
  unfold String.rev. revert t. induction s as [|a s IH]; intros t; [done|].
  simpl. rewrite IH, (IH (String a "")). by rewrite str_app_assoc.
Qed.

Lemma str_rev_cons c s : String.rev (String c s) = String.rev s +:+ String c "".
Proof. unfold String.rev at 1. simpl. apply str_rev_app_spec. Qed.

Lemma str_rev_app s t : String.rev (s +:+ t) = String.rev t +:+ String.rev s.
Proof.
  induction s as [|a s IH].
  - by rewrite str_app_nil_l, str_app_nil_r.
  - by rewrite str_app_cons, !str_rev_cons, IH, str_app_assoc.
Qed.

Lemma str_rev_length s : String.length (String.rev s) = String.length s.
Proof.
  induction s as [|a s IH]; [done|].
  rewrite str_rev_cons, str_app_length, IH. simpl. lia.
Qed.

Lemma hasChar_rev c s : hasChar c (String.rev s) = hasChar c s.
Proof.
  induction s as [|a s IH]; [done|].
  rewrite str_rev_cons, hasChar_app, IH. simpl.
  destruct (decide (a = c)); [by rewrite orb_true_r|by rewrite orb_false_r].
Qed.

End StringFacts.

(** ** The dev-mode page name *)

Section DevPageName.

Implicit Types (s name file lit : string).

Lemma dotStar_id s : Regex.hasLineTerminator s = false -> Regex.dotStar s = s.
Proof.
  induction s as [|c s IH]; [done|]. simpl.
  destruct (Regex.isLineTerminator c); [done|]. intros H. by rewrite IH.
Qed.

Lemma hasLineTerminator_app s t :
  Regex.hasLineTerminator (s +:+ t) =
  Regex.hasLineTerminator s || Regex.hasLineTerminator t.
Proof.
  induction s as [|c s IH]; [done|].
  rewrite str_app_cons. simpl. by rewrite IH, orb_assoc.
Qed.

Lemma uptoLastSlash_None s :
  hasChar "/" s = false -> Regex.uptoLastSlash s = None.
Proof.
  induction s as [|c s IH]; [done|]. simpl.
  destruct (decide (c = "/"%char)); [done|]. intros H. by rewrite IH.
Qed.

(** The greedy group gives back as little as it can: the capture runs to
    the last slash. *)
Lemma uptoLastSlash_app name file :
  hasChar "/" file = false ->
  Regex.uptoLastSlash (name +:+ "/" +:+ file) = Some name.
Proof.
  intros Hfile. induction name as [|c name IH].
  - rewrite str_app_nil_l. change ("/" +:+ file) with (String "/" file).
    simpl. by rewrite uptoLastSlash_None.
  - rewrite str_app_cons. simpl. by rewrite IH.
Qed.

Lemma matchDirGroup_here lit s cap :
  startsWith s (lit +:+ "/") = true ->
  Regex.uptoLastSlash
    (Regex.dotStar (sliceFrom (String.length lit + 1) s)) = Some cap ->
  Regex.matchDirGroup lit s = Some cap.
Proof.
  intros H1 H2.
  assert (Regex.matchDirGroup lit s =
          match (if startsWith s (lit +:+ "/")
                 then Regex.uptoLastSlash
                        (Regex.dotStar (sliceFrom (String.length lit + 1) s))
                 else None) with
          | Some c => Some c
          | None => match s with
                    | "" => None
                    | String _ s' => Regex.matchDirGroup lit s'
                    end
          end) as -> by (by destruct s).
  by rewrite H1, H2.
Qed.

Lemma matchDirGroup_prefixed lit name file :
  hasChar "/" file = false ->
  Regex.hasLineTerminator name = false ->
  Regex.hasLineTerminator file = false ->
  Regex.matchDirGroup lit (lit +:+ "/" +:+ name +:+ "/" +:+ file) = Some name.
Proof.
  intros Hfile Hn Hf. apply matchDirGroup_here.
  - rewrite <- (str_app_assoc lit "/"). apply startsWith_app.
  - rewrite <- (str_app_assoc lit "/").
    replace (String.length lit + 1) with (String.length (lit +:+ "/"))
      by (rewrite str_app_length; done).
    rewrite sliceFrom_app, dotStar_id.
    + by apply uptoLastSlash_app.
    + rewrite !hasLineTerminator_app, Hn, Hf. done.
Qed.

(** The page name is the text between the slash that follows [pagesDir]
    and the last slash of the request path. *)
Lemma devPageName_between_slashes (options : optionsT) name file :
  Regex.isLiteral (pagesDir options) = true ->
  hasChar "/" file = false ->
  Regex.hasLineTerminator name = false ->
  Regex.hasLineTerminator file = false ->
  name <> "" ->
  devPageName options ("/" +:+ name +:+ "/" +:+ file) = Some name.
Proof.
  intros Hlit Hfile Hn Hf Hne. unfold devPageName. rewrite Hlit.
  rewrite matchDirGroup_prefixed by done.
  rewrite decide_False.
  - by rewrite decide_False.
  - intros Heq. destruct (pagesDir options) as [|c d].
    + rewrite str_app_nil_l in Heq.
      change ("/" +:+ ?x) with (String "/" x) in Heq.
      injection Heq as Heq. apply str_app_eq_nil in Heq as [? _]. done.
    + rewrite str_app_cons in Heq. injection Heq as _ Heq.
      apply str_app_eq_nil in Heq as [_ Heq]. done.
Qed.

(** C1, as amended.  The middleware puts [pagesDir] in front of the request
    path itself, so the page is named by a request path that is relative
    to [pagesDir]: for a literal [pagesDir] and the request path
    [/name/file], where [file] has no slash, the page name is [name], the
    whole text between the first and the last slash. *)
Theorem devPageName_relative (options : optionsT) name file :
  Regex.isLiteral (pagesDir options) = true ->
  hasChar "/" file = false ->
  Regex.hasLineTerminator name = false ->
  Regex.hasLineTerminator file = false ->
  name <> "" ->
  devPageName options ("/" +:+ name +:+ "/" +:+ file) = Some name.
Proof. apply devPageName_between_slashes. Qed.

(** A request path that repeats [pagesDir] keeps it in the page name. *)
Lemma devPageName_repeated_pagesDir (options : optionsT) name file :
  Regex.isLiteral (pagesDir options) = true ->
  Regex.hasLineTerminator (pagesDir options) = false ->
  hasChar "/" file = false ->
  Regex.hasLineTerminator name = false ->
  Regex.hasLineTerminator file = false ->
  devPageName options
    ("/" +:+ (pagesDir options +:+ "/" +:+ name) +:+ "/" +:+ file)
  = Some (pagesDir options +:+ "/" +:+ name).
Proof.
  intros Hlit Hdir Hfile Hn Hf. apply devPageName_between_slashes; try done.
  - rewrite !hasLineTerminator_app, Hdir, Hn. done.
  - intros Heq. apply str_app_eq_nil in Heq as [_ Heq]. done.
Qed.

End DevPageName.

Lemma devPageName_relative_witness :
  devPageName defaultOptions ("/" +:+ "foo" +:+ "/" +:+ "index.html")
  = Some "foo".
Proof. apply devPageName_relative; vm_compute; congruence. Defined.

(** C1, as stated, fails: with the default [pagesDir] the request path
    [/src/views/foo/index.html] is named [src/views/foo], not [foo]. *)
Lemma devPageName_full_path_counterexample :
  devPageName defaultOptions "/src/views/foo/index.html" = Some "src/views/foo"
  /\ devPageName defaultOptions "/src/views/foo/index.html" <> Some "foo".
Proof. split; [vm_compute; reflexivity | vm_compute; congruence]. Qed.

(** ** Splitting *)

Section SplitFacts.

Implicit Types (s t sep pre name : string) (c : ascii) (l : list string).

Lemma splitGo_step sep c s :
  splitGo sep 0 (String c s) =
  if startsWith (String c s) sep
  then "" :: splitGo sep (String.length sep - 1) s
  else consHead c (splitGo sep 0 s).
Proof. reflexivity. Qed.

Lemma splitGo_nonempty sep k s : splitGo sep k s <> [].
Proof.
  revert k. induction s as [|c s IH]; intros k; [done|].
  destruct k as [|k]; [|apply IH].
  rewrite splitGo_step. destruct (startsWith _ _); [done|].
  unfold consHead. by destruct (splitGo sep 0 s).
Qed.

Lemma last_consHead c l :
  1 < length l -> last (consHead c l) = last l.
Proof. destruct l as [|p [|q l]]; simpl; [lia|lia|done]. Qed.

Lemma last_cons_nonempty {A : Type} (x : A) (l : list A) :
  l <> [] -> last (x :: l) = last l.
Proof. by destruct l. Qed.

(** Passing the rest of a matched separator. *)
Lemma splitGo_skip sep u s :
  splitGo sep (String.length u) (u +:+ s) = splitGo sep 0 s.
Proof. induction u as [|c u IH]; [done|]. by rewrite str_app_cons. Qed.

Lemma splitGo_match sep s :
  sep <> "" ->
  splitGo sep 0 (sep +:+ s) = "" :: splitGo sep 0 s.
Proof.
  intros Hsep. destruct sep as [|a sep]; [done|].
  rewrite str_app_cons, splitGo_step, <- str_app_cons, startsWith_app.
  simpl String.length.
  replace (S (String.length sep) - 1) with (String.length sep) by lia.
  by rewrite splitGo_skip.
Qed.

Lemma includes_step sep c s :
  includes (String c s) sep = startsWith (String c s) sep || includes s sep.
Proof. reflexivity. Qed.

Lemma indexOf_step sep c s :
  indexOf (String c s) sep =
  if startsWith (String c s) sep then Some 0 else S <$> indexOf s sep.
Proof. reflexivity. Qed.

(** No occurrence of the separator: one piece. *)
Lemma splitGo_not_included sep s :
  includes s sep = false -> splitGo sep 0 s = [s].
Proof.
  induction s as [|c s IH]; [done|]. rewrite includes_step.
  intros [H1 H2]%orb_false_iff.
  by rewrite splitGo_step, H1, IH.
Qed.

Lemma indexOf_cons_S sep c s n :
  indexOf (String c s) sep = Some (S n) ->
  startsWith (String c s) sep = false /\ indexOf s sep = Some n.
Proof.
  rewrite indexOf_step. destruct (startsWith (String c s) sep); [done|].
  destruct (indexOf s sep); simpl; [|done]. intros [= ->]. done.
Qed.

Lemma length_consHead c l : l <> [] -> length (consHead c l) = length l.
Proof. by destruct l. Qed.

Lemma length_splitGo_pos sep k s : 0 < length (splitGo sep k s).
Proof.
  pose proof (splitGo_nonempty sep k s).
  destruct (splitGo sep k s); [done|simpl; lia].
Qed.

(** The pieces before the first occurrence of the separator do not change
    the last piece. *)
Lemma splitGo_first_occurrence sep pre s :
  sep <> "" ->
  indexOf (pre +:+ sep) sep = Some (String.length pre) ->
  last (splitGo sep 0 (pre +:+ sep +:+ s)) = last (splitGo sep 0 s)
  /\ 1 < length (splitGo sep 0 (pre +:+ sep +:+ s)).
Proof.
  intros Hsep. induction pre as [|c pre IH]; intros Hidx.
  - rewrite str_app_nil_l, splitGo_match by done. split.
    + apply last_cons_nonempty, splitGo_nonempty.
    + pose proof (length_splitGo_pos sep 0 s). simpl. lia.
  - rewrite str_app_cons in Hidx. simpl String.length in Hidx.
    apply indexOf_cons_S in Hidx as [Hhere Hidx].
    destruct (IH Hidx) as [IH1 IH2].
    rewrite str_app_cons, splitGo_step.
    assert (startsWith (String c (pre +:+ sep +:+ s)) sep = false) as ->.
    { rewrite <- Hhere, <- (str_app_assoc pre sep s), <- !str_app_cons.
      apply startsWith_app_l. rewrite str_app_length. simpl. lia. }
    split.
    + by rewrite last_consHead.
    + rewrite length_consHead; [done|apply splitGo_nonempty].
Qed.

End SplitFacts.

(** ** Paths *)

Section PathFacts.

Implicit Types (s t d pre name file : string) (c : ascii).

Lemma split_slash s : split "/" s = splitGo "/" 0 s.
Proof. reflexivity. Qed.

Lemma splitGo_slash_step c s :
  splitGo "/" 0 (String c s) =
  if decide (c = "/"%char) then "" :: splitGo "/" 0 s
  else consHead c (splitGo "/" 0 s).
Proof.
  rewrite splitGo_step. simpl startsWith.
  destruct (decide ("/"%char = c)) as [<-|Hne].
  - rewrite decide_True by done. reflexivity.
  - rewrite decide_False by congruence. reflexivity.
Qed.

Lemma splitGo_slash_noslash s :
  hasChar "/" s = false -> splitGo "/" 0 s = [s].
Proof.
  induction s as [|c s IH]; [done|]. rewrite splitGo_slash_step. simpl.
  destruct (decide (c = "/"%char)); [done|]. intros H. by rewrite IH.
Qed.

Lemma length_splitGo_slash s :
  hasChar "/" s = true -> 1 < length (splitGo "/" 0 s).
Proof.
  induction s as [|c s IH]; [done|]. rewrite splitGo_slash_step. simpl.
  destruct (decide (c = "/"%char)).
  - intros _. pose proof (length_splitGo_pos "/" 0 s). simpl. lia.
  - intros H. rewrite length_consHead; [auto|apply splitGo_nonempty].
Qed.

Lemma lastSegment_noslash s : hasChar "/" s = false -> lastSegment s = s.
Proof.
  destruct s as [|c s]; [done|]. simpl.
  destruct (decide (c = "/"%char)); [done|]. by intros ->.
Qed.

(** The code's way to the last segment, [last] of the split at the
    slashes, meets the specification's. *)
Lemma last_split_slash d : last (split "/" d) = Some (lastSegment d).
Proof.
  rewrite split_slash. induction d as [|c d IH]; [done|].
  rewrite splitGo_slash_step. simpl lastSegment.
  destruct (hasChar "/" d) eqn:Hd.
  - destruct (decide (c = "/"%char)).
    + rewrite last_cons_nonempty; [done|apply splitGo_nonempty].
    + rewrite last_consHead; [done|by apply length_splitGo_slash].
  - rewrite splitGo_slash_noslash by done.
    by destruct (decide (c = "/"%char)).
Qed.

Lemma lastSegment_app pre name :
  hasChar "/" name = false -> lastSegment (pre +:+ "/" +:+ name) = name.
Proof.
  intros Hn. induction pre as [|c pre IH].
  - rewrite str_app_nil_l. change ("/" +:+ name) with (String "/" name).
    simpl. by rewrite Hn.
  - rewrite str_app_cons. simpl lastSegment.
    rewrite hasChar_app. change ("/" +:+ name) with (String "/" name).
    simpl hasChar at 2. by rewrite orb_true_r.
Qed.

(** The split at the slashes goes through a slash. *)
Lemma splitGo_slash_app s t :
  splitGo "/" 0 (s +:+ "/" +:+ t) = splitGo "/" 0 s ++ splitGo "/" 0 t.
Proof.
  induction s as [|c s IH].
  - rewrite str_app_nil_l. change ("/" +:+ t) with (String "/" t).
    by rewrite splitGo_slash_step.
  - rewrite str_app_cons, !splitGo_slash_step, IH.
    destruct (decide (c = "/"%char)); [done|].
    pose proof (splitGo_nonempty "/" 0 s).
    by destruct (splitGo "/" 0 s).
Qed.

(** The loop of [dirname] on a path that ends in a file name without a
    slash: it stops at the slash before the file name. *)
Lemma dirnameEnd_file (g r : string) (i : nat) (m : bool) :
  g <> "" -> hasChar "/" g = false ->
  Path.dirnameEnd i m (g +:+ String "/" r) = Some (i - String.length g).
Proof.
  revert i m. induction g as [|c g IH]; intros i m Hne Hg; [done|].
  simpl in Hg. destruct (decide (c = "/"%char)) as [|Hc]; [done|].
  rewrite str_app_cons. simpl Path.dirnameEnd. rewrite decide_False by done.
  destruct g as [|c' g].
  - rewrite str_app_nil_l. simpl. f_equal; lia.
  - rewrite IH by done. simpl. f_equal; lia.
Qed.

Lemma dirname_file d file :
  d <> "" -> d <> "/" -> file <> "" -> hasChar "/" file = false ->
  Path.dirname (d +:+ "/" +:+ file) = d.
Proof.
  intros Hd Hroot Hfile Hslash. destruct d as [|c0 d]; [done|].
  rewrite str_app_cons. unfold Path.dirname.
  rewrite str_rev_app. change ("/" +:+ file) with (String "/" file).
  rewrite str_rev_cons, str_app_assoc.
  change (String "/" "" +:+ String.rev d) with (String "/" (String.rev d)).
  rewrite dirnameEnd_file.
  - rewrite str_rev_length, str_app_length. simpl String.length.
    replace (String.length d + S (String.length file) - String.length file)
      with (S (String.length d)) by lia.
    assert ((bool_decide (c0 = "/"%char)
             && bool_decide (S (String.length d) = 1)) = false) as ->.
    { apply andb_false_iff. destruct d; [|right; by apply bool_decide_eq_false_2].
      left. apply bool_decide_eq_false_2. by intros ->. }
    rewrite <- str_app_cons.
    change (S (String.length d)) with (String.length (String c0 d)).
    apply sliceTo_app.
  - intros Hrev. apply Hfile. apply (f_equal String.length) in Hrev.
    rewrite str_rev_length in Hrev. by destruct file.
  - by rewrite hasChar_rev.
Qed.

End PathFacts.

(** ** The build-mode page name *)

Section BuildPageName.

Implicit Types (s p id pre name file : string) (c : ascii).

Lemma split_nonempty_sep sep s : sep <> "" -> split sep s = splitGo sep 0 s.
Proof. by destruct sep. Qed.

Lemma resolveIdPageName_lastSegment id :
  resolveIdPageName id = lastSegment (Path.dirname id).
Proof.
  unfold resolveIdPageName, Utils.last. by rewrite last_split_slash.
Qed.

Lemma hasChar_lastSegment s : hasChar "/" (lastSegment s) = false.
Proof.
  induction s as [|c s IH]; [done|]. simpl.
  destruct (hasChar "/" s) eqn:Hs; [done|].
  destruct (decide (c = "/"%char)); [done|].
  simpl. by rewrite decide_False.
Qed.




(** [load] on an identifier below [pagesDir]. *)
Lemma loadPageName_below options pre name file :
  pagesDir options <> "" ->
  hasChar "/" name = false ->
  hasChar "/" file = false ->
  file <> "" ->
  indexOf (pre +:+ pagesDir options) (pagesDir options)
    = Some (String.length pre) ->
  includes ("/" +:+ name) (pagesDir options) = false ->
  Path.dirname (pre +:+ pagesDir options +:+ "/" +:+ name +:+ "/" +:+ file)
    = pre +:+ pagesDir options +:+ "/" +:+ name
  /\ loadPageName options
       (pre +:+ pagesDir options +:+ "/" +:+ name +:+ "/" +:+ file) = Ok name.
Proof.
  intros Hdir Hname Hfile Hne Hidx Hinc.
  assert (Path.dirname
            (pre +:+ pagesDir options +:+ "/" +:+ name +:+ "/" +:+ file)
          = pre +:+ pagesDir options +:+ "/" +:+ name) as Hd.
  { set (d := pre +:+ pagesDir options +:+ "/" +:+ name).
    assert (pre +:+ pagesDir options +:+ "/" +:+ name +:+ "/" +:+ file
            = d +:+ "/" +:+ file) as ->
      by (unfold d; by rewrite !str_app_assoc).
    assert (2 <= String.length d) as Hlen.
    { unfold d. rewrite !str_app_length. destruct (pagesDir options); [done|].
      simpl. lia. }
    apply dirname_file; try done.
    - intros Heq. rewrite Heq in Hlen. simpl in Hlen. lia.
    - intros Heq. rewrite Heq in Hlen. simpl in Hlen. lia. }
  split; [done|].
  unfold loadPageName, Utils.last. rewrite Hd, split_nonempty_sep by done.
  destruct (splitGo_first_occurrence (pagesDir options) pre ("/" +:+ name))
    as [-> _]; [done..|].
  rewrite splitGo_not_included by done. simpl. by rewrite removeChar_id.
Qed.

(** C3, as amended.  [resolveId] names the page by the last segment of
    [dirname(id)], the directory that holds the file.  [load] names it by
    the last piece of [dirname(id)] split at [pagesDir], slashes removed:
    this is the same directory name for an identifier
    [pre ++ pagesDir/name/file] where [name] and [file] have no slash,
    [pagesDir] is not empty, does not occur in [pre ++ pagesDir] before its
    end and does not occur in [/name]. *)
Theorem buildPageName_parent_directory options :
  (forall id, resolveIdPageName id = lastSegment (Path.dirname id))
  /\ (forall pre name file,
        pagesDir options <> "" ->
        hasChar "/" name = false ->
        hasChar "/" file = false ->
        file <> "" ->
        indexOf (pre +:+ pagesDir options) (pagesDir options)
          = Some (String.length pre) ->
        includes ("/" +:+ name) (pagesDir options) = false ->
        loadPageName options
          (pre +:+ pagesDir options +:+ "/" +:+ name +:+ "/" +:+ file)
          = Ok name
        /\ lastSegment (Path.dirname
             (pre +:+ pagesDir options +:+ "/" +:+ name +:+ "/" +:+ file))
           = name).
Proof.
  split; [apply resolveIdPageName_lastSegment|].
  intros pre name file Hdir Hname Hfile Hne Hidx Hinc.
  destruct (loadPageName_below options pre name file) as [Hd Hl]; [done..|].
  split; [done|]. rewrite Hd.
  rewrite <- (str_app_assoc pre). by apply lastSegment_app.
Qed.

End BuildPageName.

Lemma buildPageName_parent_directory_witness :
  loadPageName defaultOptions
    ("/project/" +:+ "src/views" +:+ "/" +:+ "test-one" +:+ "/" +:+ "index.html")
  = Ok "test-one"
  /\ lastSegment (Path.dirname
       ("/project/" +:+ "src/views" +:+ "/" +:+ "test-one" +:+ "/"
        +:+ "index.html")) = "test-one".
Proof.
  apply (proj2 (buildPageName_parent_directory defaultOptions)
           "/project/" "test-one" "index.html");
    vm_compute; congruence.
Defined.

(** C3, as stated, fails in [load]: two directories below [pagesDir] the
    page is named by both of them, joined, while the parent directory is
    the last one. *)
Lemma loadPageName_nested_counterexample :
  endsWith "src/views/a/b/index.html" ".html" = true
  /\ lastSegment (Path.dirname "src/views/a/b/index.html") = "b"
  /\ resolveIdPageName "src/views/a/b/index.html" = "b"
  /\ loadPageName defaultOptions "src/views/a/b/index.html" = Ok "ab"
  /\ loadPageName defaultOptions "src/views/a/b/index.html"
     <> Ok (lastSegment (Path.dirname "src/views/a/b/index.html")).
Proof. repeat split; vm_compute; congruence. Qed.

(** ** The page descriptor *)

Section PageDescriptor.

Implicit Types (options : optionsT) (p k : string).

Lemma lookup_pick (obj : gmap string jsval) (keys : list string) k :
  Utils.pick obj keys !! k = if bool_decide (k ∈ keys) then obj !! k else None.
Proof.
  unfold Utils.pick. case_bool_decide as Hk.
  - destruct (obj !! k) as [v|] eqn:Hv.
    + by apply map_lookup_filter_Some.
    + apply map_lookup_filter_None. left. done.
  - apply map_lookup_filter_None. right. intros v _. done.
Qed.

(** C7.  [getPageData] is a total function, so it returns for every page
    name.  In SPA mode (no [pages], or an empty map) and for a page name
    that is no key of [pages] the descriptor is the six common fields of
    the options, whatever the page name; for a key of [pages] each field
    is the override's where the override has it, the common one where
    not. *)
Theorem getPageData_defaulting options p :
  (pages options = None
   \/ pages options = Some ∅
   \/ (exists ps, pages options = Some ps /\ ps !! p = None) ->
   getPageData options p = Utils.pick (fields options) commonKeys)
  /\ (forall ps override,
        pages options = Some ps -> ps !! p = Some override ->
        forall k,
          getPageData options p !! k =
          match override !! k with
          | Some v => Some v
          | None => Utils.pick (fields options) commonKeys !! k
          end)
  /\ (forall k,
        Utils.pick (fields options) commonKeys !! k =
        if bool_decide (k ∈ commonKeys) then fields options !! k else None).
Proof.
  split; [|split].
  - unfold getPageData. intros [->| [->| (ps & -> & Hp)]]; [done|done|].
    case_bool_decide; [done|]. rewrite Hp. simpl. apply (left_id ∅ (∪)).
  - intros ps override Hps Hp k. unfold getPageData. rewrite Hps.
    rewrite bool_decide_eq_false_2.
    + rewrite Hp. simpl. rewrite lookup_union.
      by destruct (override !! k), (Utils.pick _ _ !! k).
    + intros ->. by rewrite lookup_empty in Hp.
  - intros k. apply lookup_pick.
Qed.

End PageDescriptor.

Lemma getPageData_defaulting_witness :
  getPageData fooOptions "bar" = Utils.pick (fields fooOptions) commonKeys
  /\ getPageData fooOptions "foo" !! "title" = Some (VString "Foo")
  /\ getPageData fooOptions "foo" !! "jumpTarget" = None.
Proof.
  assert ((({[ "foo" := {[ "title" := VString "Foo" ]} ]}
             : gmap string (gmap string jsval)) !! "foo")
          = Some {[ "title" := VString "Foo" ]}) as Hfoo
    by (vm_compute; reflexivity).
  split; [|split].
  - apply (proj1 (getPageData_defaulting fooOptions "bar")).
    right; right. eexists. split; [reflexivity|]. vm_compute. reflexivity.
  - rewrite (proj1 (proj2 (getPageData_defaulting fooOptions "foo"))
               _ _ eq_refl Hfoo "title").
    vm_compute. reflexivity.
  - rewrite (proj1 (proj2 (getPageData_defaulting fooOptions "foo"))
               _ _ eq_refl Hfoo "jumpTarget").
    vm_compute. reflexivity.
Defined.

(** ** The template path *)

Section TemplatePath.

Variable isMpa : ResolvedConfig -> bool.
Variable pathResolve : string -> string -> string.
Variable cwd : string.
Variable existsSync : string -> bool.

(** C8.  When the page descriptor has a template (a non-empty string) and
    the plugin renders itself ([onlyUseEjsAndMinify] off), the dev
    middleware and [load] both take the template resolved against the
    working directory, in MPA and SPA mode and whether or not
    [public/index.html] exists. *)
Theorem templatePath_override_wins (options : optionsT)
    (config : ResolvedConfig) (pageName : string) (page : gmap string jsval)
    (t : string) :
  page !! "template" = Some (VString t) ->
  t <> "" ->
  onlyUseEjsAndMinify options = false ->
  devTemplatePath isMpa pathResolve cwd options config pageName page
    = Ok (VString (pathResolve cwd t))
  /\ loadTemplatePath pathResolve cwd existsSync page
    = Ok (VString (pathResolve cwd t)).
Proof.
  intros Ht Hne Honly. unfold devTemplatePath, loadTemplatePath, getProp.
  rewrite Ht, Honly. simpl. by rewrite bool_decide_eq_false_2.
Qed.

End TemplatePath.

Lemma templatePath_override_wins_witness :
  devTemplatePath (fun _ => true) (fun a b => a +:+ "/" +:+ b) "/project"
    templateOptions twoPagesConfig "foo" (getPageData templateOptions "foo")
    = Ok (VString "/project/tpl/foo.html")
  /\ loadTemplatePath (fun a b => a +:+ "/" +:+ b) "/project" (fun _ => true)
       (getPageData templateOptions "foo")
    = Ok (VString "/project/tpl/foo.html").
Proof.
  apply (templatePath_override_wins (fun _ => true)
           (fun a b => a +:+ "/" +:+ b) "/project" (fun _ => true)
           templateOptions twoPagesConfig "foo"
           (getPageData templateOptions "foo") "tpl/foo.html").
  - vm_compute. reflexivity.
  - congruence.
  - reflexivity.
Defined.

(** ** Output naming *)

Section OutputNaming.

Variable isMpa : ResolvedConfig -> bool.
Variable pathResolve : string -> string -> string.

Implicit Types (options : optionsT) (o : gmap string jsval)
  (inp : gmap string string).

(** Case analysis on the three directory names. *)
Ltac case_dirs bc :=
  destruct (decide (buildAssetDirName bc = ""));
  destruct (decide (buildChunkDirName bc = ""));
  destruct (decide (buildEntryDirName bc = "")).

Lemma categoryRule_no_dir hash ad key plain hashed r h :
  categoryRule hash ad "" key plain hashed r h = Ok h.
Proof. reflexivity. Qed.

Lemma categoryRule_undefined hash ad dir key plain hashed h :
  dir <> "" -> categoryRule hash ad dir key plain hashed None h = Throw TypeError.
Proof. intros H. unfold categoryRule. by rewrite decide_False. Qed.

Lemma categoryRule_defined hash ad dir key plain hashed l h :
  categoryRule hash ad dir key plain hashed (Some l) h =
  Ok (if decide (dir = "") then h
      else <[l := categoryWrite hash ad dir key plain hashed (deref h l)]> h).
Proof. unfold categoryRule. by destruct (decide (dir = "")). Qed.

Lemma prefixInput_defined bc isBuild inp :
  exists inp', prefixInput bc isBuild (Some inp) = Ok (Some inp').
Proof. unfold prefixInput. destruct (decide _); eauto. Qed.

(** The planner when the host has an output object [o]: the three rules
    write to [o]; the result is that object over the hash triple (if the
    hash step ran) over [o] as it was. *)
Lemma planOutput_defined options isBuild root0 assetsDir0 inp o :
  onlyUseEjsAndMinify options = false ->
  isMpa (hostConfig root0 assetsDir0 (Some inp) (Some o)) = true ->
  let bc := buildCfg options in
  let assetDir := if decide (assetsDir0 = "") then "assets" else assetsDir0 in
  let rule := fun dir key plain hashed (x : gmap string jsval) =>
    if decide (dir = "") then x
    else categoryWrite (htmlHash bc) assetDir dir key plain hashed x in
  let written :=
    rule (buildEntryDirName bc) "entryFileNames" "/[name].js" "/[name]-[hash].js"
      (rule (buildChunkDirName bc) "chunkFileNames" "/[name].js" "/[name]-[hash].js"
        (rule (buildAssetDirName bc) "assetFileNames" "/[name].[ext]"
           "/[name]-[hash].[ext]" o)) in
  exists inp',
    planOutput isMpa pathResolve options isBuild root0 assetsDir0
      (Some inp) (Some o)
    = Ok (Some inp',
          Some (written ∪
                (if htmlHash bc then buildAssets assetDir ∪ o else written))).
Proof.
  intros Honly Hmpa bc assetDir rule written.
  destruct (prefixInput_defined bc isBuild inp) as [inp' Hinp].
  exists inp'. unfold planOutput, configResolved.
  rewrite Honly, Hmpa. simpl negb. simpl andb.
  change (input (hostConfig root0 assetsDir0 (Some inp) (Some o)))
    with (Some inp).
  fold bc. rewrite Hinp.
  change (assetsDir (hostConfig root0 assetsDir0 (Some inp) (Some o)))
    with assetsDir0.
  fold assetDir.
  change (output (hostConfig root0 assetsDir0 (Some inp) (Some o)))
    with (Some 0).
  change (hostHeap (Some o)) with [o].
  unfold hashStep, categoryRule, written, rule. cbv zeta.
  destruct (htmlHash bc); case_dirs bc; reflexivity.
Qed.

Lemma categoryWrite_lookup hash ad dir key plain hashed o :
  categoryWrite hash ad dir key plain hashed o !! key =
  Some (VString (categoryPattern hash ad dir plain hashed (getProp o key))).
Proof. unfold categoryWrite. apply lookup_insert_eq. Qed.

Lemma categoryWrite_lookup_ne hash ad dir key plain hashed o key' :
  key <> key' ->
  categoryWrite hash ad dir key plain hashed o !! key' = o !! key'.
Proof. intros H. unfold categoryWrite. by apply lookup_insert_ne. Qed.

(** C4.  With an output object [o] of the host to start from, each
    category with a directory name gets, in the patterns the planner
    leaves, the unhashed pattern below that directory if [htmlHash] is set
    or the category's current pattern has no [[hash]], the hashed one if
    not; the three decisions are taken one by one. *)
Theorem planOutput_category_rule options isBuild root0 assetsDir0 inp o :
  onlyUseEjsAndMinify options = false ->
  isMpa (hostConfig root0 assetsDir0 (Some inp) (Some o)) = true ->
  let bc := buildCfg options in
  let assetDir := if decide (assetsDir0 = "") then "assets" else assetsDir0 in
  exists inp' final,
    planOutput isMpa pathResolve options isBuild root0 assetsDir0
      (Some inp) (Some o) = Ok (Some inp', Some final)
    /\ (buildAssetDirName bc <> "" ->
        final !! "assetFileNames" = Some (VString (
          if htmlHash bc
             || negb (includes (toString (getProp o "assetFileNames")) "[hash]")
          then assetDir +:+ "/" +:+ buildAssetDirName bc +:+ "/[name].[ext]"
          else assetDir +:+ "/" +:+ buildAssetDirName bc
               +:+ "/[name]-[hash].[ext]")))
    /\ (buildChunkDirName bc <> "" ->
        final !! "chunkFileNames" = Some (VString (
          if htmlHash bc
             || negb (includes (toString (getProp o "chunkFileNames")) "[hash]")
          then assetDir +:+ "/" +:+ buildChunkDirName bc +:+ "/[name].js"
          else assetDir +:+ "/" +:+ buildChunkDirName bc
               +:+ "/[name]-[hash].js")))
    /\ (buildEntryDirName bc <> "" ->
        final !! "entryFileNames" = Some (VString (
          if htmlHash bc
             || negb (includes (toString (getProp o "entryFileNames")) "[hash]")
          then assetDir +:+ "/" +:+ buildEntryDirName bc +:+ "/[name].js"
          else assetDir +:+ "/" +:+ buildEntryDirName bc
               +:+ "/[name]-[hash].js"))).
Proof.
  intros Honly Hmpa bc assetDir.
  destruct (planOutput_defined options isBuild root0 assetsDir0 inp o
              Honly Hmpa) as [inp' Hplan].
  eexists inp', _. split; [exact Hplan|].
  fold bc assetDir.
  repeat split; intros Hdir; apply lookup_union_Some_l.
  - destruct (decide (buildEntryDirName bc = ""));
      destruct (decide (buildChunkDirName bc = ""));
      rewrite ?categoryWrite_lookup_ne by done;
      by rewrite decide_False, categoryWrite_lookup by done.
  - destruct (decide (buildEntryDirName bc = ""));
      destruct (decide (buildAssetDirName bc = ""));
      rewrite ?categoryWrite_lookup_ne by done;
      rewrite decide_False, categoryWrite_lookup by done;
      unfold getProp; by rewrite ?categoryWrite_lookup_ne by done.
  - rewrite decide_False, categoryWrite_lookup by done.
    destruct (decide (buildChunkDirName bc = ""));
      destruct (decide (buildAssetDirName bc = ""));
      unfold getProp; by rewrite ?categoryWrite_lookup_ne by done.
Qed.

(** C10.  Without an output object of the host, a directory name for any
    category makes the planner throw a [TypeError], whether or not
    [htmlHash] is set: the rules go through the reference taken before the
    hash step.  With an output object and an input mapping the planner
    returns. *)
Theorem planOutput_undefined_output_throws options isBuild root0 assetsDir0 :
  onlyUseEjsAndMinify options = false ->
  (forall input0,
     isMpa (hostConfig root0 assetsDir0 input0 None) = true ->
     buildAssetDirName (buildCfg options) <> ""
     \/ buildChunkDirName (buildCfg options) <> ""
     \/ buildEntryDirName (buildCfg options) <> "" ->
     planOutput isMpa pathResolve options isBuild root0 assetsDir0 input0 None
     = Throw TypeError)
  /\ (forall inp o,
       isMpa (hostConfig root0 assetsDir0 (Some inp) (Some o)) = true ->
       exists r,
         planOutput isMpa pathResolve options isBuild root0 assetsDir0
           (Some inp) (Some o) = Ok r).
Proof.
  intros Honly. split.
  - intros input0 Hmpa Hdirs. unfold planOutput, configResolved.
    rewrite Honly, Hmpa. simpl negb. simpl andb. cbv zeta.
    destruct (prefixInput _ _ _) as [input1|[]]; [|done].
    unfold hashStep, categoryRule, mbind, result_bind.
    change (output (hostConfig root0 assetsDir0 input0 None)) with (@None loc).
    destruct (htmlHash (buildCfg options)); case_dirs (buildCfg options);
      first [reflexivity | by destruct Hdirs as [?|[?|?]]].
  - intros inp o Hmpa.
    destruct (planOutput_defined options isBuild root0 assetsDir0 inp o
                Honly Hmpa) as [inp' Hplan].
    eauto.
Qed.

(** When the hash step runs and no directory is configured, a pattern the
    host's object already has stays; the triple only fills what the object
    does not have. *)
Lemma planOutput_hash_no_dirs options isBuild root0 assetsDir0 inp o :
  onlyUseEjsAndMinify options = false ->
  isMpa (hostConfig root0 assetsDir0 (Some inp) (Some o)) = true ->
  htmlHash (buildCfg options) = true ->
  buildAssetDirName (buildCfg options) = "" ->
  buildChunkDirName (buildCfg options) = "" ->
  buildEntryDirName (buildCfg options) = "" ->
  exists inp' final,
    planOutput isMpa pathResolve options isBuild root0 assetsDir0
      (Some inp) (Some o) = Ok (Some inp', Some final)
    /\ forall k,
         final !! k =
         match o !! k with
         | Some v => Some v
         | None =>
             buildAssets (if decide (assetsDir0 = "") then "assets"
                          else assetsDir0) !! k
         end.
Proof.
  intros Honly Hmpa Hhash Ha Hc He.
  destruct (planOutput_defined options isBuild root0 assetsDir0 inp o
              Honly Hmpa) as [inp' Hplan].
  rewrite Hhash, Ha, Hc, He in Hplan. simpl in Hplan.
  eexists inp', _. split; [exact Hplan|]. intros k.
  rewrite !lookup_union.
  by destruct (o !! k), (buildAssets _ !! k).
Qed.

End OutputNaming.

Lemma planOutput_category_rule_witness :
  exists inp' final,
    planOutput (fun _ => true) (fun _ p => p) assetDirOptions true
      "/project" "" (Some twoPages)
      (Some {[ "assetFileNames" := VString "static/[name]-[hash].[ext]" ]})
    = Ok (Some inp', Some final)
    /\ final !! "assetFileNames"
       = Some (VString "assets/x/[name]-[hash].[ext]").
Proof.
  destruct (planOutput_category_rule (fun _ => true) (fun _ p => p)
              assetDirOptions true "/project" "" twoPages
              {[ "assetFileNames" := VString "static/[name]-[hash].[ext]" ]}
              eq_refl eq_refl) as (inp' & final & Hplan & Hasset & _).
  exists inp', final. split; [exact Hplan|].
  rewrite Hasset; [reflexivity|]. vm_compute. congruence.
Defined.

Lemma planOutput_undefined_output_throws_witness :
  planOutput (fun _ => true) (fun _ p => p) assetDirOptions true
    "/project" "" (Some twoPages) None = Throw TypeError.
Proof.
  apply (proj1 (planOutput_undefined_output_throws (fun _ => true)
                  (fun _ p => p) assetDirOptions true "/project" "" eq_refl)).
  - reflexivity.
  - left. vm_compute. congruence.
Defined.

(** C2 at a host configuration that already names the entry files: the
    hash step is on and no directory is configured, yet the entry pattern
    the planner leaves is the host's hashed one, not the one of the
    triple. *)
Lemma planOutput_hash_keeps_host_pattern :
  planOutput (fun _ => true) (fun _ p => p) hashOptions true "/project" ""
    (Some twoPages) (Some {[ "entryFileNames" := VString "js/[name]-[hash].js" ]})
  = Ok (Some twoPages,
        Some {[ "entryFileNames" := VString "js/[name]-[hash].js";
                "chunkFileNames" := VString "assets/[name].js";
                "assetFileNames" := VString "assets/[name].[ext]" ]}).
Proof. vm_compute. reflexivity. Qed.

(** ** Post-processing of the bundle *)

Section Bundle.

Variable isMpa : ResolvedConfig -> bool.
Variable minifyHtml : string -> string.
Variable regexReplaceAll : string -> string -> string -> string.
Variable uniqueHash : string.

Implicit Types (options : optionsT) (config : ResolvedConfig)
  (bc : buildCfgT) (dir name file : string).

Lemma generateBundle_lookup options config
    (bundle : gmap string htmlChunkT) item htmlChunk :
  bundle !! item = Some htmlChunk ->
  endsWith item ".html" = true ->
  generateBundle isMpa minifyHtml regexReplaceAll uniqueHash options config
    bundle !! item
  = Some (processChunk isMpa minifyHtml regexReplaceAll uniqueHash options
            config htmlChunk).
Proof.
  intros Hitem Hhtml. unfold generateBundle.
  rewrite map_lookup_imap, Hitem. simpl. by rewrite Hhtml.
Qed.

(** The base name of a document two levels down or more: the prefix and
    the directory that holds the file. *)
Lemma htmlNameOf_nested bc dir name file :
  hasChar "/" name = false -> hasChar "\" name = false ->
  hasChar "/" file = false -> hasChar "\" file = false ->
  htmlNameOf bc (dir +:+ "/" +:+ name +:+ "/" +:+ file)
  = buildPrefixName bc +:+ name.
Proof.
  intros Hn1 Hn2 Hf1 Hf2. unfold htmlNameOf.
  rewrite !mapChar_app, (mapChar_id _ _ name), (mapChar_id _ _ file) by done.
  change (mapChar "\" "/" "/") with "/".
  rewrite split_slash, !splitGo_slash_app.
  rewrite (splitGo_slash_noslash name), (splitGo_slash_noslash file) by done.
  rewrite length_app. simpl length.
  replace (length (splitGo "/" 0 (mapChar "\" "/" dir)) + 2)
    with (S (S (length (splitGo "/" 0 (mapChar "\" "/" dir))))) by lia.
  rewrite lookup_app_r by lia. by rewrite Nat.sub_diag.
Qed.

Lemma htmlNameOf_one_level bc name file :
  hasChar "/" name = false -> hasChar "\" name = false ->
  hasChar "/" file = false -> hasChar "\" file = false ->
  htmlNameOf bc (name +:+ "/" +:+ file) = buildPrefixName bc +:+ name.
Proof.
  intros Hn1 Hn2 Hf1 Hf2. unfold htmlNameOf.
  rewrite !mapChar_app, (mapChar_id _ _ name), (mapChar_id _ _ file) by done.
  change (mapChar "\" "/" "/") with "/".
  rewrite split_slash, !splitGo_slash_app.
  by rewrite (splitGo_slash_noslash name), (splitGo_slash_noslash file).
Qed.

(** A path without a separator has one segment, and no second-to-last. *)
Lemma htmlNameOf_top_level bc file :
  hasChar "/" file = false -> hasChar "\" file = false ->
  htmlNameOf bc file = buildPrefixName bc +:+ "undefined".
Proof.
  intros Hf1 Hf2. unfold htmlNameOf.
  by rewrite mapChar_id, split_slash, splitGo_slash_noslash.
Qed.

(** The pattern for the style sheets overwrites whatever character stands
    in front of [css]. *)
Lemma hashTag_any_char_css (c : ascii) :
  Regex.isLineTerminator c = false ->
  c <> "."%char ->
  hashTag uniqueHash (String c "css") = ".css?" +:+ uniqueHash.
Proof.
  intros Hc Hdot. unfold hashTag.
  assert (Regex.replaceAllGo Regex.matchesDotJs 3 (".js?" +:+ uniqueHash) 0
            (String c "css") = String c "css") as ->.
  { simpl. unfold Regex.matchesDotJs. simpl. by rewrite decide_False. }
  simpl. unfold Regex.matchesAnyCss. rewrite Hc. simpl.
  by rewrite str_app_nil_r.
Qed.

(** C5.  Where [generateBundle] puts an emitted HTML document.  In MPA
    mode: [htmlName.html] with [moveHtmlTop] (also when [moveHtmlDirTop]
    is set as well), [htmlName/index.html] with [moveHtmlDirTop] alone,
    the path it had with neither.  In SPA mode: [index.html], whatever the
    flags and the path.  [htmlName] is the prefix followed by the
    directory that holds the file. *)
Theorem generateBundle_relocation options config
    (bundle : gmap string htmlChunkT) item htmlChunk :
  bundle !! item = Some htmlChunk ->
  endsWith item ".html" = true ->
  let bc := buildCfg options in
  let htmlName := htmlNameOf bc (fileName htmlChunk) in
  exists processed,
    generateBundle isMpa minifyHtml regexReplaceAll uniqueHash options config
      bundle !! item = Some processed
    /\ (isMpa config = true -> moveHtmlTop bc = true ->
        fileName processed = htmlName +:+ ".html")
    /\ (isMpa config = true -> moveHtmlTop bc = false ->
        moveHtmlDirTop bc = true ->
        fileName processed = htmlName +:+ "/index.html")
    /\ (isMpa config = true -> moveHtmlTop bc = false ->
        moveHtmlDirTop bc = false ->
        fileName processed = fileName htmlChunk)
    /\ (isMpa config = false -> fileName processed = "index.html")
    /\ (forall dir name file,
          fileName htmlChunk = dir +:+ "/" +:+ name +:+ "/" +:+ file ->
          hasChar "/" name = false -> hasChar "\" name = false ->
          hasChar "/" file = false -> hasChar "\" file = false ->
          htmlName = buildPrefixName bc +:+ name).
Proof.
  intros Hitem Hhtml bc htmlName. eexists. split.
  { by apply generateBundle_lookup. }
  simpl. unfold finalFileName. fold bc htmlName.
  repeat split.
  - by intros -> ->.
  - by intros -> -> ->.
  - by intros -> -> ->.
  - by intros ->.
  - intros dir name file Hf ????. unfold htmlName. rewrite Hf.
    by apply htmlNameOf_nested.
Qed.

(** C9.  In MPA mode a document whose output path has no separator has no
    second-to-last segment: its base name is the prefix followed by the
    text [undefined], and with a move flag set it is put at
    [undefined.html], or at [undefined/index.html], behind the prefix. *)
Theorem generateBundle_top_level_undefined options config
    (bundle : gmap string htmlChunkT) item htmlChunk :
  bundle !! item = Some htmlChunk ->
  endsWith item ".html" = true ->
  isMpa config = true ->
  hasChar "/" (fileName htmlChunk) = false ->
  hasChar "\" (fileName htmlChunk) = false ->
  let bc := buildCfg options in
  htmlNameOf bc (fileName htmlChunk) = buildPrefixName bc +:+ "undefined"
  /\ exists processed,
       generateBundle isMpa minifyHtml regexReplaceAll uniqueHash options
         config bundle !! item = Some processed
       /\ (moveHtmlTop bc = true ->
           fileName processed = buildPrefixName bc +:+ "undefined.html")
       /\ (moveHtmlTop bc = false -> moveHtmlDirTop bc = true ->
           fileName processed
           = buildPrefixName bc +:+ "undefined/index.html").
Proof.
  intros Hitem Hhtml Hmpa Hf1 Hf2 bc.
  split; [by apply htmlNameOf_top_level|].
  eexists. split; [by apply generateBundle_lookup|].
  simpl. unfold finalFileName. fold bc.
  rewrite Hmpa, htmlNameOf_top_level by done.
  split.
  - intros ->. by rewrite str_app_assoc.
  - intros -> ->. by rewrite str_app_assoc.
Qed.

End Bundle.

Lemma generateBundle_relocation_witness :
  exists processed,
    generateBundle (fun _ => true) (fun s => s) (fun _ _ s => s)
      "0123456789abcdef" defaultOptions twoPagesConfig fooBundle
      !! "views/foo/index.html" = Some processed
    /\ fileName processed = "foo.html".
Proof.
  assert (fooBundle !! "views/foo/index.html"
          = Some {| fileName := "views/foo/index.html";
                    source := "<a href=https://tailwindcss.com>docs</a>" |})
    as Hitem by (vm_compute; reflexivity).
  destruct (generateBundle_relocation (fun _ => true) (fun s => s)
              (fun _ _ s => s) "0123456789abcdef" defaultOptions
              twoPagesConfig fooBundle _ _ Hitem eq_refl)
    as (processed & Hp & Htop & _).
  exists processed. split; [exact Hp|].
  rewrite Htop; reflexivity.
Defined.

Lemma generateBundle_top_level_undefined_witness :
  exists processed,
    generateBundle (fun _ => true) (fun s => s) (fun _ _ s => s)
      "0123456789abcdef" defaultOptions twoPagesConfig topBundle
      !! "index.html" = Some processed
    /\ fileName processed = "undefined.html".
Proof.
  assert (topBundle !! "index.html"
          = Some {| fileName := "index.html"; source := "<p>top</p>" |})
    as Hitem by (vm_compute; reflexivity).
  destruct (generateBundle_top_level_undefined (fun _ => true) (fun s => s)
              (fun _ _ s => s) "0123456789abcdef" defaultOptions
              twoPagesConfig topBundle _ _ Hitem eq_refl eq_refl eq_refl
              eq_refl)
    as (_ & processed & Hp & Htop & _).
  exists processed. split; [exact Hp|].
  rewrite Htop; reflexivity.
Defined.

(** C6 at a document that mentions [tailwindcss]: the pattern for the
    style sheets takes any character in front of [css], so the [d] is
    replaced by a dot and the token is put behind a text that is no
    reference to a style sheet. *)
Lemma hashTag_rewrites_any_char_before_css :
  hashTag "0123456789abcdef" "<a href=https://tailwindcss.com>docs</a>"
  = "<a href=https://tailwin.css?0123456789abcdef.com>docs</a>"
  /\ source <$>
       (generateBundle (fun _ => true) (fun s => s) (fun _ _ s => s)
          "0123456789abcdef" hashOptions twoPagesConfig fooBundle
          !! "views/foo/index.html")
     = Some "<a href=https://tailwin.css?0123456789abcdef.com>docs</a>".
Proof. split; vm_compute; reflexivity. Qed.

(** ** The two build hooks together, and the dev scenario *)

Section Pipeline.

Variable isMpa : ResolvedConfig -> bool.
Variable pathResolve : string -> string -> string.
Variable cwd : string.

(** The requests for the site root and for a page below [pagesDir] with the
    default options. *)
Lemma devPageName_site_root : devPageName defaultOptions "/" = Some "index".
Proof. reflexivity. Qed.

(** The scenario of the specification, with the request path relative to
    [pagesDir]: page [foo], its own title, the MPA default template. *)
Lemma devResolve_scenario (config : ResolvedConfig) :
  isMpa config = true ->
  devHandles "/foo/index.html" = true
  /\ exists page,
       devResolve isMpa pathResolve cwd fooOptions config "/foo/index.html"
       = Some ("foo", page, Ok (VString (pathResolve cwd "public/index.html")))
       /\ page !! "title" = Some (VString "Foo").
Proof.
  intros Hmpa. split; [reflexivity|]. eexists. split.
  - unfold devResolve.
    change (devPageName fooOptions "/foo/index.html") with (Some "foo").
    unfold devTemplatePath. rewrite Hmpa. reflexivity.
  - vm_compute. reflexivity.
Qed.


End Pipeline.

(** With a [pagesDir] that the page's own directory name contains, [load]
    loses the page name on the virtual identifier of [resolveId]. *)
Lemma loadPageName_pagesDir_in_name :
  let options := {| pagesDir := "views"; pages := Some ∅; fields := ∅;
                    buildCfg := defaultBuildCfg; minify := true;
                    onlyUseEjsAndMinify := false |} in
  let config := {| root := "/project"; assetsDir := "assets";
                   input := Some {[ "myviews" := "/project/views/myviews/index.html";
                                    "other" := "/project/views/other/index.html" ]};
                   output := None |} in
  resolveId (fun _ => true) options config "/project/views/myviews/index.html"
  = (Some "src/views/myviews/index.html", Some "myviews")
  /\ loadPageName options "src/views/myviews/index.html" = Ok "".
Proof. split; vm_compute; reflexivity. Qed.

(** * Further properties of the code *)

(** ** The dev middleware: fallback and soundness of the page name *)

Section DevPageNameMore.

Implicit Types (s x p q lit cap file : string) (c : ascii).

Lemma matchDirGroup_step lit s :
  Regex.matchDirGroup lit s =
  match (if startsWith s (lit +:+ "/")
         then Regex.uptoLastSlash
                (Regex.dotStar (sliceFrom (String.length lit + 1) s))
         else None) with
  | Some cap => Some cap
  | None => match s with
            | "" => None
            | String _ s' => Regex.matchDirGroup lit s'
            end
  end.
Proof. by destruct s. Qed.

Lemma hasChar_sliceFrom_S c m s :
  hasChar c (sliceFrom (S m) s) = true -> hasChar c (sliceFrom m s) = true.
Proof.
  revert s. induction m as [|m IH]; intros [|a s]; simpl; try done.
  - intros ->. by destruct (decide (a = c)).
  - apply IH.
Qed.

Lemma uptoLastSlash_Some_hasChar x cap :
  Regex.uptoLastSlash x = Some cap -> hasChar "/" x = true.
Proof.
  revert cap. induction x as [|c x IH]; intros cap; [done|]. simpl.
  destruct (decide (c = "/"%char)); [done|].
  destruct (Regex.uptoLastSlash x) as [cap'|]; [|done].
  intros _. by apply (IH cap').
Qed.

Lemma hasChar_dotStar c x :
  hasChar c (Regex.dotStar x) = true -> hasChar c x = true.
Proof.
  induction x as [|a x IH]; [done|]. simpl.
  destruct (Regex.isLineTerminator a); [done|]. simpl.
  destruct (decide (a = c)); [done|]. apply IH.
Qed.

(** A match needs a slash somewhere behind the literal and its slash. *)
Lemma matchDirGroup_Some_hasChar lit s cap :
  Regex.matchDirGroup lit s = Some cap ->
  hasChar "/" (sliceFrom (String.length lit + 1) s) = true.
Proof.
  rewrite Nat.add_1_r.
  induction s as [|a s IH]; rewrite matchDirGroup_step, Nat.add_1_r;
    destruct (startsWith _ (lit +:+ "/"));
    try destruct (Regex.uptoLastSlash _) eqn:Hup; try done;
    try (intros _; by eapply hasChar_dotStar, uptoLastSlash_Some_hasChar).
  - intros H. change (sliceFrom (S (String.length lit)) (String a s))
      with (sliceFrom (String.length lit) s).
    by apply hasChar_sliceFrom_S, IH.
  - intros H. change (sliceFrom (S (String.length lit)) (String a s))
      with (sliceFrom (String.length lit) s).
    by apply hasChar_sliceFrom_S, IH.
Qed.

(** X1.  A request path with no directory in it, the site root among
    them, is served as the page [index]. *)
Theorem devPageName_no_directory (options : optionsT) file :
  Regex.isLiteral (pagesDir options) = true ->
  hasChar "/" file = false ->
  devPageName options ("/" +:+ file) = Some "index".
Proof.
  intros Hlit Hfile. unfold devPageName. rewrite Hlit.
  destruct (decide _); [done|].
  destruct (Regex.matchDirGroup _ _) as [cap|] eqn:Hm; [|done].
  apply matchDirGroup_Some_hasChar in Hm.
  rewrite <- (str_app_assoc (pagesDir options) "/" file) in Hm.
  replace (String.length (pagesDir options) + 1)
    with (String.length (pagesDir options +:+ "/")) in Hm
    by (by rewrite str_app_length).
  rewrite sliceFrom_app in Hm. congruence.
Qed.

Lemma uptoLastSlash_startsWith x cap :
  Regex.uptoLastSlash x = Some cap -> startsWith x (cap +:+ "/") = true.
Proof.
  revert cap. induction x as [|c x IH]; intros cap; [done|]. simpl.
  destruct (Regex.uptoLastSlash x) as [cap'|].
  - intros [= <-]. rewrite str_app_cons. simpl. rewrite decide_True by done.
    by apply IH.
  - destruct (decide (c = "/"%char)) as [->|]; [|done]. by intros [= <-].
Qed.

Lemma startsWith_dotStar x p :
  startsWith (Regex.dotStar x) p = true -> startsWith x p = true.
Proof.
  revert x. induction p as [|a p IH]; intros x; [done|].
  destruct x as [|b x]; [done|]. simpl.
  destruct (Regex.isLineTerminator b); [done|]. simpl.
  destruct (decide (a = b)); [apply IH|done].
Qed.

Lemma startsWith_app_split s p q :
  startsWith s p = true ->
  startsWith (sliceFrom (String.length p) s) q = true ->
  startsWith s (p +:+ q) = true.
Proof.
  revert s. induction p as [|a p IH]; intros s; [done|].
  destruct s as [|b s]; [done|]. rewrite str_app_cons. simpl.
  destruct (decide (a = b)); [apply IH|done].
Qed.

(** The group of a match stands in the text, between the literal with its
    slash and a slash. *)
Lemma matchDirGroup_includes lit s cap :
  Regex.matchDirGroup lit s = Some cap ->
  includes s (lit +:+ "/" +:+ cap +:+ "/") = true.
Proof.
  assert (forall t, startsWith t (lit +:+ "/") = true ->
            Regex.uptoLastSlash
              (Regex.dotStar (sliceFrom (String.length lit + 1) t)) = Some cap ->
            startsWith t (lit +:+ "/" +:+ cap +:+ "/") = true) as Hhere.
  { intros t H1 H2. rewrite <- (str_app_assoc lit "/").
    apply startsWith_app_split; [done|].
    rewrite str_app_length. simpl String.length.
    by apply startsWith_dotStar, uptoLastSlash_startsWith. }
  induction s as [|a s IH]; rewrite matchDirGroup_step.
  - destruct (startsWith "" (lit +:+ "/")) eqn:H1; [|done].
    destruct (Regex.uptoLastSlash _) eqn:H2; [|done].
    intros [= ->]. simpl. by rewrite Hhere.
  - rewrite includes_step.
    destruct (startsWith (String a s) (lit +:+ "/")) eqn:H1.
    + destruct (Regex.uptoLastSlash _) eqn:H2.
      * intros [= ->]. by rewrite Hhere.
      * intros H. rewrite IH by done. apply orb_true_r.
    + intros H. rewrite IH by done. apply orb_true_r.
Qed.

(** X2.  The page name the middleware hands on is never empty, and unless
    it is the fallback [index] it stands in the address, right behind
    [pagesDir] and its slash and in front of a slash. *)
Theorem devPageName_sound (options : optionsT) (originalUrl : string) :
  Regex.isLiteral (pagesDir options) = true ->
  exists pageName,
    devPageName options originalUrl = Some pageName
    /\ pageName <> ""
    /\ (pageName = "index"
        \/ includes (pagesDir options +:+ originalUrl)
             (pagesDir options +:+ "/" +:+ pageName +:+ "/") = true).
Proof.
  intros Hlit. unfold devPageName. rewrite Hlit.
  destruct (decide _).
  { exists "index". by auto. }
  destruct (Regex.matchDirGroup _ _) as [cap|] eqn:Hm.
  - destruct (decide (cap = "")).
    + exists "index". by auto.
    + exists cap. repeat split; [done|]. right.
      by apply matchDirGroup_includes.
  - exists "index". by auto.
Qed.

End DevPageNameMore.

Lemma devPageName_no_directory_witness :
  devPageName defaultOptions ("/" +:+ "about.html") = Some "index".
Proof. apply devPageName_no_directory; reflexivity. Defined.

Lemma devPageName_sound_witness :
  exists pageName,
    devPageName defaultOptions "/shop/cart/index.html" = Some pageName
    /\ pageName <> ""
    /\ (pageName = "index"
        \/ includes (pagesDir defaultOptions +:+ "/shop/cart/index.html")
             (pagesDir defaultOptions +:+ "/" +:+ pageName +:+ "/") = true).
Proof. apply devPageName_sound. reflexivity. Defined.

(** ** The planner: input keys, untouched fields, default cases *)

Section OutputNamingMore.

Variable isMpa : ResolvedConfig -> bool.
Variable pathResolve : string -> string -> string.

Implicit Types (options : optionsT) (o : gmap string jsval)
  (inp : gmap string string) (c : ResolvedConfig) (h : heapT).

Ltac case_dir_names bc :=
  destruct (decide (buildAssetDirName bc = ""));
  destruct (decide (buildChunkDirName bc = ""));
  destruct (decide (buildEntryDirName bc = "")).

(** The planner with an output object, the input mapping spelled out. *)
Lemma planOutput_defined_input options isBuild root0 assetsDir0 inp o :
  onlyUseEjsAndMinify options = false ->
  isMpa (hostConfig root0 assetsDir0 (Some inp) (Some o)) = true ->
  let bc := buildCfg options in
  exists final,
    planOutput isMpa pathResolve options isBuild root0 assetsDir0
      (Some inp) (Some o)
    = Ok (Some (if decide (buildPrefixName bc = "") then inp
                else kmap (String.app
                             (if isBuild then buildPrefixName bc else ""))
                       inp),
          Some final).
Proof.
  intros Honly Hmpa bc. unfold planOutput, configResolved.
  rewrite Honly, Hmpa. simpl negb. simpl andb.
  change (input (hostConfig root0 assetsDir0 (Some inp) (Some o)))
    with (Some inp).
  change (output (hostConfig root0 assetsDir0 (Some inp) (Some o)))
    with (Some 0).
  change (hostHeap (Some o)) with [o].
  fold bc. unfold prefixInput, hashStep, categoryRule. cbv zeta.
  destruct (decide (buildPrefixName bc = "")); destruct (htmlHash bc);
    case_dir_names bc; eexists; reflexivity.
Qed.

Lemma kmap_app_nil inp : kmap (M2 := gmap string) (String.app "") inp = inp.
Proof.
  apply map_eq. intros key.
  change key with ("" +:+ key) at 1. apply (lookup_kmap (String.app "")).
Qed.

(** X3.  In a build the planner puts [buildPrefixName] in front of every
    key of the input mapping and keeps the values: the mapping it leaves
    has a page under the prefixed key exactly where the host had it under
    the key.  In dev the input mapping stays as it is, prefix or not. *)
Theorem planOutput_input_keys options isBuild root0 assetsDir0 inp o :
  onlyUseEjsAndMinify options = false ->
  isMpa (hostConfig root0 assetsDir0 (Some inp) (Some o)) = true ->
  let prefix := buildPrefixName (buildCfg options) in
  exists inp' final,
    planOutput isMpa pathResolve options isBuild root0 assetsDir0
      (Some inp) (Some o) = Ok (Some inp', Some final)
    /\ (isBuild = true ->
        (forall key, inp' !! (prefix +:+ key) = inp !! key)
        /\ (forall key' path, inp' !! key' = Some path ->
              exists key, key' = prefix +:+ key /\ inp !! key = Some path))
    /\ (isBuild = false -> inp' = inp).
Proof.
  intros Honly Hmpa prefix.
  destruct (planOutput_defined_input options isBuild root0 assetsDir0 inp o
              Honly Hmpa) as [final Hplan].
  eexists _, final. split; [exact Hplan|]. fold prefix.
  destruct (decide (prefix = "")) as [Hp|Hp].
  - rewrite Hp. split; [|done]. intros _. split; [done|].
    intros key' path Hk. by exists key'.
  - split.
    + intros ->. split.
      * intros key. apply (lookup_kmap (String.app prefix)).
      * intros key' path Hk.
        by apply (lookup_kmap_Some (String.app prefix)) in Hk.
    + intros ->. apply kmap_app_nil.
Qed.

(** X4.  Outside MPA mode, or when the plugin only post-processes, the
    configuration hook never touches the output patterns or the heap; it
    changes nothing at all in a build, and in dev at most sets an input
    mapping that was undefined. *)
Theorem configResolved_not_planning options isBuild c h c' h' :
  onlyUseEjsAndMinify options = true \/ isMpa c = false ->
  configResolved isMpa pathResolve options isBuild c h = Ok (c', h') ->
  h' = h
  /\ output c' = output c
  /\ root c' = root c
  /\ assetsDir c' = assetsDir c
  /\ (input c <> None -> c' = c)
  /\ (isBuild = true -> c' = c).
Proof.
  intros Hmode. unfold configResolved.
  assert (negb (onlyUseEjsAndMinify options) && isMpa c = false) as ->.
  { destruct Hmode as [-> | ->]; [done|apply andb_false_r]. }
  destruct isBuild; simpl negb; simpl andb.
  { intros [= <- <-]. by repeat split. }
  destruct (truthy _); simpl andb; [|intros [= <- <-]; by repeat split].
  case_bool_decide as Hin; [|intros [= <- <-]; by repeat split].
  destruct (getProp (fields options) "template"); try done.
  intros [= <- <-]. by repeat split.
Qed.

(** X5.  Whatever the options, a property of the host's output object that
    is none of the three patterns ([dir], [format], [manualChunks], ...)
    comes out of the planner as it went in. *)
Theorem planOutput_keeps_other_fields options isBuild root0 assetsDir0 inp o :
  onlyUseEjsAndMinify options = false ->
  isMpa (hostConfig root0 assetsDir0 (Some inp) (Some o)) = true ->
  exists inp' final,
    planOutput isMpa pathResolve options isBuild root0 assetsDir0
      (Some inp) (Some o) = Ok (Some inp', Some final)
    /\ forall key,
         key <> "assetFileNames" -> key <> "chunkFileNames" ->
         key <> "entryFileNames" ->
         final !! key = o !! key.
Proof.
  intros Honly Hmpa.
  destruct (planOutput_defined isMpa pathResolve options isBuild root0
              assetsDir0 inp o Honly Hmpa) as [inp' Hplan].
  eexists inp', _. split; [exact Hplan|].
  intros key Ha Hc He. set (bc := buildCfg options).
  assert (forall dir k plain hashed (x : gmap string jsval) ad hash,
            k <> key ->
            (if decide (dir = "") then x
             else categoryWrite hash ad dir k plain hashed x) !! key
            = x !! key) as Hrule.
  { intros dir k plain hashed x ad hash Hk.
    destruct (decide (dir = "")); [done|]. by apply categoryWrite_lookup_ne. }
  rewrite lookup_union, !Hrule by done.
  destruct (htmlHash bc).
  - rewrite lookup_union.
    assert (buildAssets
              (if decide (assetsDir0 = "") then "assets" else assetsDir0)
            !! key = None) as ->.
    { unfold buildAssets. by rewrite !lookup_insert_ne, lookup_singleton_ne. }
    by destruct (o !! key).
  - rewrite !Hrule by done. by destruct (o !! key).
Qed.

(** Without an output object and without directory names the planner
    leaves a new object: the triple if the hash step ran, else empty. *)
Lemma planOutput_undefined_no_dirs options isBuild root0 assetsDir0 inp :
  onlyUseEjsAndMinify options = false ->
  isMpa (hostConfig root0 assetsDir0 (Some inp) None) = true ->
  buildAssetDirName (buildCfg options) = "" ->
  buildChunkDirName (buildCfg options) = "" ->
  buildEntryDirName (buildCfg options) = "" ->
  exists inp',
    planOutput isMpa pathResolve options isBuild root0 assetsDir0
      (Some inp) None
    = Ok (Some inp',
          Some (if htmlHash (buildCfg options)
                then buildAssets (if decide (assetsDir0 = "") then "assets"
                                  else assetsDir0)
                else ∅)).
Proof.
  intros Honly Hmpa Ha Hc He.
  destruct (prefixInput_defined (buildCfg options) isBuild inp)
    as [inp' Hinp].
  exists inp'. unfold planOutput, configResolved.
  rewrite Honly, Hmpa, Ha, Hc, He. simpl negb. simpl andb.
  change (input (hostConfig root0 assetsDir0 (Some inp) None))
    with (Some inp).
  rewrite Hinp. unfold hashStep.
  destruct (htmlHash (buildCfg options)); simpl.
  - by rewrite (right_id_L ∅ (∪)), (left_id_L ∅ (∪)).
  - by rewrite (left_id_L ∅ (∪)).
Qed.

(** X6.  Where the host has no output object, or one without the three
    patterns, the hash step (no directory names configured) leaves exactly
    its triple: entry files and chunks at [[name].js], assets at
    [[name].[ext]], below the assets directory. *)
Theorem planOutput_hash_installs_triple options isBuild root0 assetsDir0 inp
    (out : option (gmap string jsval)) :
  onlyUseEjsAndMinify options = false ->
  isMpa (hostConfig root0 assetsDir0 (Some inp) out) = true ->
  htmlHash (buildCfg options) = true ->
  buildAssetDirName (buildCfg options) = "" ->
  buildChunkDirName (buildCfg options) = "" ->
  buildEntryDirName (buildCfg options) = "" ->
  (forall o, out = Some o ->
     o !! "entryFileNames" = None /\ o !! "chunkFileNames" = None
     /\ o !! "assetFileNames" = None) ->
  let assetDir := if decide (assetsDir0 = "") then "assets" else assetsDir0 in
  exists inp' final,
    planOutput isMpa pathResolve options isBuild root0 assetsDir0
      (Some inp) out = Ok (Some inp', Some final)
    /\ final !! "entryFileNames" = Some (VString (assetDir +:+ "/[name].js"))
    /\ final !! "chunkFileNames" = Some (VString (assetDir +:+ "/[name].js"))
    /\ final !! "assetFileNames"
       = Some (VString (assetDir +:+ "/[name].[ext]")).
Proof.
  intros Honly Hmpa Hhash Ha Hc He Hout assetDir.
  destruct out as [o|].
  - destruct (planOutput_hash_no_dirs isMpa pathResolve options isBuild
                root0 assetsDir0 inp o Honly Hmpa Hhash Ha Hc He)
      as (inp' & final & Hplan & Hfinal).
    destruct (Hout o eq_refl) as (H1 & H2 & H3).
    exists inp', final. split; [exact Hplan|].
    by rewrite !Hfinal, H1, H2, H3.
  - destruct (planOutput_undefined_no_dirs options isBuild root0 assetsDir0
                inp Honly Hmpa Ha Hc He) as [inp' Hplan].
    rewrite Hhash in Hplan. eexists inp', _. split; [exact Hplan|]. done.
Qed.

(** X7.  With neither the hash tag nor a directory name configured the
    planner leaves the host's output patterns as they were; an undefined
    [rollupOptions.output] becomes an empty object. *)
Theorem planOutput_nothing_configured options isBuild root0 assetsDir0 inp
    (out : option (gmap string jsval)) :
  onlyUseEjsAndMinify options = false ->
  isMpa (hostConfig root0 assetsDir0 (Some inp) out) = true ->
  htmlHash (buildCfg options) = false ->
  buildAssetDirName (buildCfg options) = "" ->
  buildChunkDirName (buildCfg options) = "" ->
  buildEntryDirName (buildCfg options) = "" ->
  exists inp',
    planOutput isMpa pathResolve options isBuild root0 assetsDir0
      (Some inp) out = Ok (Some inp', Some (default ∅ out)).
Proof.
  intros Honly Hmpa Hhash Ha Hc He. destruct out as [o|].
  - destruct (planOutput_defined isMpa pathResolve options isBuild root0
                assetsDir0 inp o Honly Hmpa) as [inp' Hplan].
    rewrite Hhash, Ha, Hc, He in Hplan. simpl in Hplan.
    rewrite (idemp_L (∪)) in Hplan. by exists inp'.
  - destruct (planOutput_undefined_no_dirs options isBuild root0 assetsDir0
                inp Honly Hmpa Ha Hc He) as [inp' Hplan].
    rewrite Hhash in Hplan. by exists inp'.
Qed.

End OutputNamingMore.

Lemma planOutput_input_keys_witness :
  exists inp' final,
    planOutput (fun _ => true) (fun _ p => p) prefixOptions true
      "/project" "" (Some twoPages) (Some ∅) = Ok (Some inp', Some final)
    /\ inp' !! ("app-" +:+ "foo") = Some "/project/src/views/foo/index.html"
    /\ inp' !! "foo" = None.
Proof.
  destruct (planOutput_input_keys (fun _ => true) (fun _ p => p)
              prefixOptions true "/project" "" twoPages ∅ eq_refl eq_refl)
    as (inp' & final & Hplan & Hbuild & _).
  destruct (Hbuild eq_refl) as [Hkey Hkeys].
  exists inp', final. split; [exact Hplan|]. split.
  - etrans; [exact (Hkey "foo")|]. vm_compute. reflexivity.
  - destruct (inp' !! "foo") as [path|] eqn:Hfoo; [|reflexivity].
    destruct (Hkeys _ _ Hfoo) as (key & Heq & _). discriminate Heq.
Defined.

Lemma configResolved_not_planning_witness :
  configResolved (fun _ => false) (fun _ p => p) hashOptions true
    twoPagesConfig [] = Ok (twoPagesConfig, [])
  /\ output twoPagesConfig = None.
Proof.
  split; [reflexivity|].
  destruct (configResolved_not_planning (fun _ => false) (fun _ p => p)
              hashOptions true twoPagesConfig [] twoPagesConfig []
              (or_intror eq_refl) eq_refl) as (_ & Ho & _).
  exact Ho.
Defined.

Lemma planOutput_keeps_other_fields_witness :
  exists inp' final,
    planOutput (fun _ => true) (fun _ p => p) hashOptions true
      "/project" "" (Some twoPages) (Some {[ "format" := VString "es" ]})
    = Ok (Some inp', Some final)
    /\ final !! "format" = Some (VString "es").
Proof.
  destruct (planOutput_keeps_other_fields (fun _ => true) (fun _ p => p)
              hashOptions true "/project" "" twoPages
              {[ "format" := VString "es" ]} eq_refl eq_refl)
    as (inp' & final & Hplan & Hkeep).
  exists inp', final. split; [exact Hplan|].
  rewrite Hkeep by congruence. vm_compute. reflexivity.
Defined.

Lemma planOutput_hash_installs_triple_witness :
  exists inp' final,
    planOutput (fun _ => true) (fun _ p => p) hashOptions true
      "/project" "" (Some twoPages) None = Ok (Some inp', Some final)
    /\ final !! "entryFileNames" = Some (VString "assets/[name].js").
Proof.
  destruct (planOutput_hash_installs_triple (fun _ => true) (fun _ p => p)
              hashOptions true "/project" "" twoPages None
              eq_refl eq_refl eq_refl eq_refl eq_refl eq_refl)
    as (inp' & final & Hplan & Hentry & _).
  - intros o Ho. discriminate Ho.
  - exists inp', final. split; [exact Hplan|exact Hentry].
Defined.

Lemma planOutput_nothing_configured_witness :
  exists inp',
    planOutput (fun _ => true) (fun _ p => p) defaultOptions true
      "/project" "" (Some twoPages) None = Ok (Some inp', Some ∅).
Proof.
  apply (planOutput_nothing_configured (fun _ => true) (fun _ p => p)
           defaultOptions true "/project" "" twoPages None);
    reflexivity.
Defined.

(** ** The build hooks: [resolveId] and [load] *)

Section BuildHooksMore.

Variable isMpa : ResolvedConfig -> bool.

Implicit Types (s g r d file id : string) (c : ascii)
  (options : optionsT) (config : ResolvedConfig).

Lemma str_rev_involutive s : String.rev (String.rev s) = s.
Proof.
  induction s as [|c s IH]; [done|].
  by rewrite str_rev_cons, str_rev_app, IH.
Qed.

(** The loop of [basename] on a path that ends in a file name: it collects
    the file name and stops at the slash in front of it. *)
Lemma basenameGo_file g r acc m :
  g <> "" -> hasChar "/" g = false ->
  Path.basenameGo m (g +:+ String "/" r) acc = String.rev g +:+ acc.
Proof.
  revert acc m. induction g as [|c g IH]; intros acc m Hne Hg; [done|].
  simpl in Hg. destruct (decide (c = "/"%char)) as [|Hc]; [done|].
  rewrite str_app_cons. simpl Path.basenameGo. rewrite decide_False by done.
  rewrite str_rev_cons, str_app_assoc.
  destruct g as [|c' g].
  - reflexivity.
  - by rewrite IH.
Qed.

Lemma basename_file d file :
  file <> "" -> hasChar "/" file = false ->
  Path.basename (d +:+ "/" +:+ file) = file.
Proof.
  intros Hne Hfile. unfold Path.basename.
  rewrite str_rev_app. change ("/" +:+ file) with (String "/" file).
  rewrite str_rev_cons, str_app_assoc.
  change (String "/" "" +:+ String.rev d) with (String "/" (String.rev d)).
  rewrite basenameGo_file.
  - by rewrite str_rev_involutive, str_app_nil_r.
  - intros Hrev. apply Hne. apply (f_equal String.length) in Hrev.
    rewrite str_rev_length in Hrev. by destruct file.
  - by rewrite hasChar_rev.
Qed.

Lemma endsWith_app s p : endsWith (s +:+ p) p = true.
Proof.
  induction s as [|c s IH].
  - rewrite str_app_nil_l. destruct p; [done|]. simpl. by rewrite decide_True.
  - rewrite str_app_cons. simpl. destruct (decide _); [done|apply IH].
Qed.

(** X8.  In SPA mode [resolveId] answers an HTML identifier with the file
    name alone below [src/], whatever directory it came from, and assigns
    no page name. *)
Theorem resolveId_spa options config d stem :
  onlyUseEjsAndMinify options = false ->
  isMpa config = false ->
  hasChar "/" stem = false ->
  resolveId isMpa options config (d +:+ "/" +:+ stem +:+ ".html")
  = (Some ("src/" +:+ stem +:+ ".html"), None).
Proof.
  intros Honly Hmpa Hstem. unfold resolveId.
  rewrite Honly, Hmpa.
  rewrite <- (str_app_assoc "/" stem), <- (str_app_assoc d).
  rewrite endsWith_app. simpl negb. simpl andb.
  rewrite !str_app_assoc. rewrite basename_file.
  - done.
  - intros Heq. apply str_app_eq_nil in Heq as [_ Heq]. done.
  - by rewrite hasChar_app, Hstem.
Qed.

Lemma dirnameEnd_positive r i m e :
  Path.dirnameEnd i m r = Some e -> String.length r <= i -> 1 <= e.
Proof.
  revert i m. induction r as [|c r IH]; intros i m; [done|]. simpl.
  destruct (decide (c = "/"%char)).
  - destruct m.
    + intros H Hlen. apply (IH _ _ H). lia.
    + intros [= <-] Hlen. lia.
  - intros H Hlen. apply (IH _ _ H). lia.
Qed.

(** [dirname] never gives the empty string. *)
Lemma dirname_nonempty id : Path.dirname id <> "".
Proof.
  unfold Path.dirname. destruct id as [|c0 tl]; [done|].
  destruct (Path.dirnameEnd _ _ _) as [e|] eqn:He.
  - apply dirnameEnd_positive in He; [|by rewrite str_rev_length].
    destruct (_ && _); [done|]. destruct e; [lia|done].
  - by destruct (bool_decide _).
Qed.

Lemma split_nonempty sep s : s <> "" -> split sep s <> [].
Proof.
  intros Hs. destruct sep.
  - by destruct s.
  - apply splitGo_nonempty.
Qed.

Lemma hasChar_removeChar c s : hasChar c (removeChar c s) = false.
Proof.
  induction s as [|a s IH]; [done|]. simpl.
  destruct (decide (a = c)); [done|]. simpl. by rewrite decide_False.
Qed.

(** X10.  The page names of the build hooks are single segments: neither
    the one [resolveId] assigns nor the one [load] assigns has a slash, and
    [load] finds one for every identifier and every [pagesDir] (its
    [replace] is never called on [undefined]). *)
Theorem buildPageNames_single_segment options id :
  hasChar "/" (resolveIdPageName id) = false
  /\ exists pageName,
       loadPageName options id = Ok pageName
       /\ hasChar "/" pageName = false.
Proof.
  split.
  - rewrite resolveIdPageName_lastSegment. apply hasChar_lastSegment.
  - unfold loadPageName, Utils.last.
    pose proof (split_nonempty (pagesDir options) (Path.dirname id)
                  (dirname_nonempty id)) as Hsplit.
    destruct (last _) as [piece|] eqn:Hlast.
    + eexists. split; [done|]. apply hasChar_removeChar.
    + by apply last_None in Hlast.
Qed.

End BuildHooksMore.

Lemma resolveId_spa_witness :
  resolveId (fun _ => false) defaultOptions twoPagesConfig
    ("/project" +:+ "/" +:+ "index" +:+ ".html")
  = (Some "src/index.html", None).
Proof.
  apply (resolveId_spa (fun _ => false) defaultOptions twoPagesConfig
           "/project" "index"); reflexivity.
Defined.


(** ** [resolveId] in MPA mode, default templates, descriptor fields *)

Section ResolveMore.

Variable isMpa : ResolvedConfig -> bool.
Variable pathResolve : string -> string -> string.
Variable cwd : string.
Variable existsSync : string -> bool.

Implicit Types (options : optionsT) (config : ResolvedConfig)
  (id key pageName : string) (page : gmap string jsval).

(** X11.  In MPA mode [resolveId] assigns the parent directory of every
    HTML identifier as page name, also when it declines the identifier; it
    answers exactly the identifiers that are values of the input mapping,
    always with an identifier below [src/] that ends in [/index.html]. *)
Theorem resolveId_mpa options config id :
  onlyUseEjsAndMinify options = false ->
  isMpa config = true ->
  endsWith id ".html" = true ->
  exists answer,
    resolveId isMpa options config id
    = (answer, Some (lastSegment (Path.dirname id)))
    /\ (is_Some answer <->
        exists inputPages key,
          input config = Some inputPages /\ inputPages !! key = Some id)
    /\ (forall virtualId, answer = Some virtualId ->
          startsWith virtualId "src/" = true
          /\ endsWith virtualId "/index.html" = true).
Proof.
  intros Honly Hmpa Hhtml. unfold resolveId.
  rewrite Honly, Hmpa, Hhtml. simpl negb. simpl andb.
  rewrite resolveIdPageName_lastSegment.
  eexists. split; [reflexivity|]. split.
  - destruct (input config) as [inputPages|].
    + case_bool_decide as Hin.
      * split; [|by eauto]. intros _.
        apply list_elem_of_fmap in Hin as ([key id'] & -> & Hin).
        apply elem_of_map_to_list in Hin. by eauto.
      * split; [by intros [? [=]]|].
        intros (inputPages' & key & [= <-] & Hkey). destruct Hin.
        apply list_elem_of_fmap. exists (key, id).
        split; [done|]. by apply elem_of_map_to_list.
    + split; [by intros [? [=]]|]. by intros (? & ? & [=] & _).
  - intros virtualId Hv.
    destruct (input config) as [inputPages|]; [case_bool_decide|];
      try done.
    injection Hv as <-. split; [reflexivity|].
    rewrite <- !str_app_assoc. apply endsWith_app.
Qed.

(** X12.  Without a template in the page descriptor (an empty string
    counts as none) the dev middleware chooses the default by the mode,
    [load] by the existence of [public/index.html]; they take the same
    file exactly when the mode is MPA where that file exists and SPA where
    it does not. *)
Theorem templatePath_defaults options config pageName page :
  truthy (getProp page "template") = false ->
  onlyUseEjsAndMinify options = false ->
  devTemplatePath isMpa pathResolve cwd options config pageName page
    = Ok (VString (pathResolve cwd
            (if isMpa config then "public/index.html" else "index.html")))
  /\ loadTemplatePath pathResolve cwd existsSync page
    = Ok (VString (pathResolve cwd
            (if existsSync (pathResolve cwd "public/index.html")
             then "public/index.html" else "index.html")))
  /\ (pathResolve cwd "public/index.html" <> pathResolve cwd "index.html" ->
      (devTemplatePath isMpa pathResolve cwd options config pageName page
       = loadTemplatePath pathResolve cwd existsSync page
       <-> isMpa config = existsSync (pathResolve cwd "public/index.html"))).
Proof.
  intros Ht Honly. unfold devTemplatePath, loadTemplatePath, resolve.
  rewrite Ht, Honly.
  destruct (isMpa config), (existsSync _);
    (split; [done|]; split; [done|]); intros Hne; split; intros Heq;
    try done; injection Heq; congruence.
Qed.

(** X13.  Every field of a page descriptor is one of the six common
    fields of the options or a field of the page's own override: the other
    options never reach the descriptor, nor do the overrides of another
    page. *)
Theorem getPageData_field_origin options pageName key (v : jsval) :
  getPageData options pageName !! key = Some v ->
  (key ∈ commonKeys /\ fields options !! key = Some v)
  \/ (exists ps override,
        pages options = Some ps /\ ps !! pageName = Some override
        /\ override !! key = Some v).
Proof.
  unfold getPageData.
  assert (Utils.pick (fields options) commonKeys !! key = Some v ->
          key ∈ commonKeys /\ fields options !! key = Some v) as Hpick.
  { rewrite lookup_pick. by case_bool_decide. }
  destruct (pages options) as [ps|]; [|by auto].
  case_bool_decide; [by auto|].
  rewrite lookup_union.
  destruct (ps !! pageName) as [override|] eqn:Hp; simpl.
  - destruct (override !! key) as [w|] eqn:Hk.
    + intros Hv. right. exists ps, override. repeat split; [done|].
      rewrite <- Hv. by destruct (Utils.pick _ _ !! key).
    + rewrite (left_id None _). auto.
  - rewrite lookup_empty, (left_id None _). auto.
Qed.

End ResolveMore.

Lemma resolveId_mpa_witness :
  exists answer,
    resolveId (fun _ => true) defaultOptions twoPagesConfig
      "/project/src/views/foo/index.html"
    = (answer,
       Some (lastSegment (Path.dirname "/project/src/views/foo/index.html")))
    /\ is_Some answer.
Proof.
  destruct (resolveId_mpa (fun _ => true) defaultOptions twoPagesConfig
              "/project/src/views/foo/index.html" eq_refl eq_refl eq_refl)
    as (answer & Hr & Hiff & _).
  exists answer. split; [exact Hr|]. apply Hiff.
  exists twoPages, "foo". split; reflexivity.
Defined.

Lemma templatePath_defaults_witness :
  devTemplatePath (fun _ => true) (fun a b => a +:+ "/" +:+ b) "/project"
    fooOptions twoPagesConfig "foo" (getPageData fooOptions "foo")
  = Ok (VString "/project/public/index.html").
Proof.
  apply (proj1 (templatePath_defaults (fun _ => true)
                  (fun a b => a +:+ "/" +:+ b) "/project" (fun _ => true)
                  fooOptions twoPagesConfig "foo"
                  (getPageData fooOptions "foo") eq_refl eq_refl)).
Defined.

Lemma getPageData_field_origin_witness :
  ("title" ∈ commonKeys /\ fields fooOptions !! "title" = Some (VString "Foo"))
  \/ (exists ps override,
        pages fooOptions = Some ps /\ ps !! "foo" = Some override
        /\ override !! "title" = Some (VString "Foo")).
Proof.
  apply (getPageData_field_origin fooOptions "foo" "title" (VString "Foo")).
  vm_compute. reflexivity.
Defined.

(** ** The bundle: keys, separators, the hash tag on references *)

Section BundleMore.

Variable isMpa : ResolvedConfig -> bool.
Variable minifyHtml : string -> string.
Variable regexReplaceAll : string -> string -> string -> string.
Variable uniqueHash : string.

Implicit Types (options : optionsT) (config : ResolvedConfig)
  (bc : buildCfgT) (s a b text : string) (c : ascii).

(** X14.  [generateBundle] keeps the keys of the bundle, also for the
    documents it gives a new file name, and keeps every chunk whose key
    does not end in [.html] as it is. *)
Theorem generateBundle_keys options config (bundle : gmap string htmlChunkT) :
  dom (generateBundle isMpa minifyHtml regexReplaceAll uniqueHash options
         config bundle) = dom bundle
  /\ forall item, endsWith item ".html" = false ->
       generateBundle isMpa minifyHtml regexReplaceAll uniqueHash options
         config bundle !! item = bundle !! item.
Proof.
  unfold generateBundle. split.
  - apply set_eq. intros item. rewrite !elem_of_dom, map_lookup_imap.
    by destruct (bundle !! item).
  - intros item Hitem. rewrite map_lookup_imap.
    destruct (bundle !! item); simpl; [|done]. by rewrite Hitem.
Qed.

Lemma mapChar_slashes s :
  mapChar "\" "/" (mapChar "/" "\" s) = mapChar "\" "/" s.
Proof.
  induction s as [|c s IH]; [done|]. simpl. rewrite IH. f_equal.
  destruct (decide (c = "/"%char)) as [->|]; [done|].
  by destruct (decide (c = "\"%char)).
Qed.

Lemma mapChar_idemp c1 c2 s : mapChar c1 c2 (mapChar c1 c2 s) = mapChar c1 c2 s.
Proof.
  induction s as [|c s IH]; [done|]. simpl. rewrite IH. f_equal.
  destruct (decide (c = c1)); [|by rewrite decide_False].
  by destruct (decide (c2 = c1)).
Qed.

(** X15.  The base name of a document does not depend on the separator
    its output path is written with: slashes for backslashes or the other
    way round give the same name. *)
Theorem htmlNameOf_separators bc (fileName0 : string) :
  htmlNameOf bc (mapChar "/" "\" fileName0) = htmlNameOf bc fileName0
  /\ htmlNameOf bc (mapChar "\" "/" fileName0) = htmlNameOf bc fileName0.
Proof.
  unfold htmlNameOf. by rewrite mapChar_slashes, mapChar_idemp.
Qed.

Lemma replaceAllGo_step (matches : string -> bool) len r c s :
  Regex.replaceAllGo matches len r 0 (String c s) =
  if matches (String c s)
  then r +:+ Regex.replaceAllGo matches len r (len - 1) s
  else String c (Regex.replaceAllGo matches len r 0 s).
Proof. reflexivity. Qed.

Lemma replaceDotJs_id r s :
  includes s ".js" = false ->
  Regex.replaceAllGo Regex.matchesDotJs 3 r 0 s = s.
Proof.
  induction s as [|c s IH]; [done|]. rewrite includes_step.
  intros [H1 H2]%orb_false_iff. rewrite replaceAllGo_step.
  change (Regex.matchesDotJs (String c s))
    with (startsWith (String c s) ".js").
  by rewrite H1, IH.
Qed.

Lemma includes_false_startsWith s p :
  includes s p = false -> startsWith s p = false.
Proof. destruct s; simpl; by intros [? ?]%orb_false_iff. Qed.

Lemma replaceAnyCss_id r s :
  includes s "css" = false ->
  Regex.replaceAllGo Regex.matchesAnyCss 4 r 0 s = s.
Proof.
  induction s as [|c s IH]; [done|]. rewrite includes_step.
  intros [H1 H2]%orb_false_iff. rewrite replaceAllGo_step.
  change (Regex.matchesAnyCss (String c s))
    with (negb (Regex.isLineTerminator c) && startsWith s "css").
  rewrite (includes_false_startsWith _ _ H2), andb_false_r. by rewrite IH.
Qed.

(** X16.  A document that contains neither [.js] nor [css] comes out of
    the hash step as it went in. *)
Theorem hashTag_no_reference text :
  includes text ".js" = false ->
  includes text "css" = false ->
  hashTag uniqueHash text = text.
Proof.
  intros Hjs Hcss. unfold hashTag.
  by rewrite replaceDotJs_id, replaceAnyCss_id.
Qed.

Lemma indexOf_S_startsWith s p n :
  indexOf s p = Some (S n) -> startsWith s p = false.
Proof.
  destruct s as [|c s].
  - simpl. by destruct (startsWith "" p).
  - by intros [? _]%indexOf_cons_S.
Qed.

(** The first [.js] of a text gets the replacement; the replacing goes on
    behind it. *)
Lemma replaceDotJs_first r a b :
  indexOf (a +:+ ".js") ".js" = Some (String.length a) ->
  Regex.replaceAllGo Regex.matchesDotJs 3 r 0 (a +:+ ".js" +:+ b)
  = a +:+ r +:+ Regex.replaceAllGo Regex.matchesDotJs 3 r 0 b.
Proof.
  induction a as [|c a IH]; intros Hidx; [reflexivity|].
  rewrite str_app_cons in Hidx. simpl String.length in Hidx.
  apply indexOf_cons_S in Hidx as [Hhere Hidx].
  change (String c a +:+ ".js" +:+ b) with (String c (a +:+ ".js" +:+ b)).
  change (String c a +:+ r +:+ ?y) with (String c (a +:+ r +:+ y)).
  rewrite replaceAllGo_step.
  change (Regex.matchesDotJs (String c (a +:+ ".js" +:+ b)))
    with (startsWith (String c (a +:+ ".js" +:+ b)) ".js").
  assert (startsWith (String c (a +:+ ".js" +:+ b)) ".js" = false) as ->.
  { etrans; [|exact Hhere]. rewrite <- (str_app_assoc a ".js" b).
    change (String c ((a +:+ ".js") +:+ b))
      with (String c (a +:+ ".js") +:+ b).
    apply startsWith_app_l. simpl. rewrite str_app_length. simpl. lia. }
  by rewrite IH.
Qed.

(** The first [css] of a text, with the character in front of it, gets
    the replacement. *)
Lemma replaceAnyCss_first r a b :
  indexOf (a +:+ ".css") "css" = Some (S (String.length a)) ->
  Regex.replaceAllGo Regex.matchesAnyCss 4 r 0 (a +:+ ".css" +:+ b)
  = a +:+ r +:+ Regex.replaceAllGo Regex.matchesAnyCss 4 r 0 b.
Proof.
  induction a as [|c a IH]; intros Hidx; [reflexivity|].
  rewrite str_app_cons in Hidx. simpl String.length in Hidx.
  apply indexOf_cons_S in Hidx as [_ Hidx].
  change (String c a +:+ ".css" +:+ b) with (String c (a +:+ ".css" +:+ b)).
  change (String c a +:+ r +:+ ?y) with (String c (a +:+ r +:+ y)).
  rewrite replaceAllGo_step.
  change (Regex.matchesAnyCss (String c (a +:+ ".css" +:+ b)))
    with (negb (Regex.isLineTerminator c)
          && startsWith (a +:+ ".css" +:+ b) "css").
  assert (startsWith (a +:+ ".css" +:+ b) "css" = false) as ->.
  { etrans; [|exact (indexOf_S_startsWith _ _ _ Hidx)].
    rewrite <- (str_app_assoc a ".css" b).
    apply startsWith_app_l. rewrite str_app_length. simpl. lia. }
  by rewrite andb_false_r, IH.
Qed.

(** X17.  A document with one [.js] in it, and no [css] once the token is
    in, comes out with the token behind that reference and nothing else
    changed. *)
Theorem hashTag_script_reference a b :
  indexOf (a +:+ ".js") ".js" = Some (String.length a) ->
  includes b ".js" = false ->
  includes (a +:+ ".js?" +:+ uniqueHash +:+ b) "css" = false ->
  hashTag uniqueHash (a +:+ ".js" +:+ b) = a +:+ ".js?" +:+ uniqueHash +:+ b.
Proof.
  intros Hidx Hb Hcss. unfold hashTag.
  rewrite replaceDotJs_first, (replaceDotJs_id _ b) by done.
  rewrite (str_app_assoc ".js?" uniqueHash b).
  by apply replaceAnyCss_id.
Qed.

(** X18.  A document with one [.css] in it, no other [css] and no [.js],
    comes out with the token behind that reference and nothing else
    changed. *)
Theorem hashTag_style_reference a b :
  includes (a +:+ ".css" +:+ b) ".js" = false ->
  indexOf (a +:+ ".css") "css" = Some (S (String.length a)) ->
  includes b "css" = false ->
  hashTag uniqueHash (a +:+ ".css" +:+ b)
  = a +:+ ".css?" +:+ uniqueHash +:+ b.
Proof.
  intros Hjs Hidx Hb. unfold hashTag.
  rewrite replaceDotJs_id by done.
  rewrite replaceAnyCss_first, (replaceAnyCss_id _ b) by done.
  by rewrite (str_app_assoc ".css?" uniqueHash b).
Qed.

End BundleMore.

Lemma hashTag_no_reference_witness :
  hashTag "0123456789abcdef" "<p>hello</p>" = "<p>hello</p>".
Proof. apply hashTag_no_reference; reflexivity. Defined.

Lemma hashTag_script_reference_witness :
  hashTag "0123456789abcdef"
    ("<script src=/assets/app" +:+ ".js" +:+ "></script>")
  = "<script src=/assets/app" +:+ ".js?" +:+ "0123456789abcdef"
    +:+ "></script>".
Proof. apply hashTag_script_reference; reflexivity. Defined.

Lemma hashTag_style_reference_witness :
  hashTag "0123456789abcdef" ("<link href=/assets/app" +:+ ".css" +:+ ">")
  = "<link href=/assets/app" +:+ ".css?" +:+ "0123456789abcdef" +:+ ">".
Proof. apply hashTag_style_reference; reflexivity. Defined.

Lemma generateBundle_keys_witness :
  generateBundle (fun _ => true) (fun s => s) (fun _ _ s => s)
    "0123456789abcdef" hashOptions twoPagesConfig mixedBundle
    !! "assets/app.js"
  = Some {| fileName := "assets/app.js"; source := "import './app.css'" |}.
Proof.
  rewrite (proj2 (generateBundle_keys (fun _ => true) (fun s => s)
                    (fun _ _ s => s) "0123456789abcdef" hashOptions
                    twoPagesConfig mixedBundle) "assets/app.js" eq_refl).
  vm_compute. reflexivity.
Defined.
